(** * jeop3 benchmark scripts: prompt builder, response cleaner, response evaluator

    A shallow embedding of the pure core of the benchmarking scripts
    ([scripts/benchmark_models.py], [scripts/quality_compare.py],
    [benchmark_ai.py]) and the properties of it that the specification
    states.

    Conventions of the embedding.
    - A Python [str] is a [string]; every [ascii] stands for ONE code
      point in U+0000..U+00FF, so [String.length] is Python's [len].
    - A Python [int] is a [Z].
    - Python's [None] and JSON [null] are the same object, [JNull].
    - A function that can raise returns a [result]: [Ok v] or [Raise e]. *)

From Stdlib Require Import ZArith String Ascii List Lia DecimalString QArith Qround.
From stdpp Require Import gmap strings list.

Open Scope Z_scope.

(** ** Python string primitives *)

Module PyStr.

(** The line feed, Python's ["\n"]. *)
Definition LF : ascii := ascii_of_nat 10.
Definition NL : string := String LF "".

(** [str.isspace] of one code point, on U+0000..U+00FF: the characters
    TAB..CR, FS..US, SPACE, NEL (0x85) and NBSP (0xA0). *)
Definition isspace (c : ascii) : bool :=
  let n := nat_of_ascii c in
  ((9 <=? n) && (n <=? 13) || (28 <=? n) && (n <=? 32)
   || (n =? 133) || (n =? 160))%nat.

(** [s.startswith(p)] *)
Definition startswith (s p : string) : bool := String.prefix p s.

(** [s.endswith(p)]: some tail of [s] is [p]. *)
Fixpoint endswith (s p : string) : bool :=
  match s with
  | EmptyString => String.eqb p ""
  | String _ s' => String.eqb s p || endswith s' p
  end.

(** [s[:stop]]: a negative [stop] counts from the end, and the bound
    is clipped into [0, len(s)]. *)
Definition slice_to (s : string) (stop : Z) : string :=
  let n := Z.of_nat (String.length s) in
  let stop' := if stop <? 0 then Z.max 0 (n + stop) else Z.min stop n in
  substring 0 (Z.to_nat stop') s.

(** [s[start:]] for [start >= 0]. *)
Definition slice_from (s : string) (start : nat) : string :=
  substring start (String.length s - start) s.

(** [s.lstrip()], [s.rstrip()], [s.strip()] *)
Fixpoint lstrip (s : string) : string :=
  match s with
  | EmptyString => ""
  | String c s' => if isspace c then lstrip s' else s
  end.

Fixpoint rstrip (s : string) : string :=
  match s with
  | EmptyString => ""
  | String c s' =>
      match rstrip s' with
      | EmptyString => if isspace c then "" else String c ""
      | r => String c r
      end
  end.

Definition strip (s : string) : string := rstrip (lstrip s).

(** [s.split(sep)] for a one-character separator: never empty. *)
Fixpoint split (s : string) (sep : ascii) : list string :=
  match s with
  | EmptyString => [""]
  | String c s' =>
      if Ascii.eqb c sep then "" :: split s' sep
      else match split s' sep with
           | l :: ls => String c l :: ls
           | [] => [String c ""]
           end
  end.

(** [sep.join(l)] *)
Definition join (sep : string) (l : list string) : string := String.concat sep l.

(** [s.lower()] on U+0000..U+00FF: A..Z and the Latin-1 capitals
    U+00C0..U+00DE (without the multiplication sign U+00D7) move up by
    32; everything else is its own lower case. *)
Definition lower_char (c : ascii) : ascii :=
  let n := nat_of_ascii c in
  if ((65 <=? n) && (n <=? 90)
      || (192 <=? n) && (n <=? 222) && negb (n =? 215))%nat
  then ascii_of_nat (n + 32) else c.

Fixpoint lower (s : string) : string :=
  match s with
  | EmptyString => ""
  | String c s' => String (lower_char c) (lower s')
  end.

(** [str(n)] of an [int]. *)
Definition str_of_int (n : Z) : string := NilZero.string_of_int (Z.to_int n).

(** [needle in s]: substring test. *)
Fixpoint contains (s needle : string) : bool :=
  String.prefix needle s
  || match s with
     | EmptyString => false
     | String _ s' => contains s' needle
     end.

(** The characters of [s], each as a one-character string (iterating
    over a [str]). *)
Fixpoint chars (s : string) : list string :=
  match s with
  | EmptyString => []
  | String c s' => String c "" :: chars s'
  end.

End PyStr.

Import PyStr.

(** ** Response cleaner ([scripts/quality_compare.py], [clean_response]) *)

Definition fence : string := "```".

Definition clean_response (response_text : string) : string :=
  if startswith response_text fence then
    let lines := split response_text LF in
    let response_text :=
      match lines with
      | l0 :: _ :: _ =>
          if startswith l0 fence then join NL (drop 1 lines) else response_text
      | _ => response_text
      end in
    if endswith response_text fence
    then strip (slice_to response_text (-3))
    else response_text
  else response_text.

(** The text preparation of [extract_json] ([benchmark_ai.py]), the
    sibling cleaner: it strips the marker only, never the whole line. *)
Definition extract_json_text (content : string) : string :=
  let content := strip content in
  let content :=
    if startswith content "```json" then slice_from content 7
    else if startswith content fence then slice_from content 3
    else content in
  let content :=
    if endswith content fence then slice_to content (-3) else content in
  strip content.

(** ** Exceptions and results *)

Inductive exn : Type :=
| JSONDecodeError (msg : string)
| AttributeError
| TypeError
| KeyError
| IndexError
| RecursionError.

Inductive result (A : Type) : Type :=
| Ok (a : A)
| Raise (e : exn).

Arguments Ok {A} a.
Arguments Raise {A} e.

Definition bind {A B : Type} (m : result A) (k : A -> result B) : result B :=
  match m with
  | Ok a => k a
  | Raise e => Raise e
  end.

Notation "x <-- m ;; k" := (bind m (fun x => k))
  (at level 100, m at next level, right associativity).

(** ** Python floats

    The float primitives of the interpreter are an interface: the
    properties below hold for every implementation of it, in particular
    for IEEE 754 binary64 with CPython's [repr] and [round]. *)

Class PyFloat (F : Type) : Type := {
  float_zero : F;                  (* the literal [0.0] *)
  float_of_int : Z -> F;           (* [float(n)] *)
  int_truediv : Z -> Z -> F;       (* [a / b] on two ints *)
  float_mul : F -> F -> F;
  float_add : F -> F -> F;
  float_round : F -> Z -> F;       (* [round(x, ndigits)] *)
  float_eq_int : F -> Z -> bool;   (* [x == n] *)
  float_bool : F -> bool;          (* [bool(x)] *)
  float_repr : F -> string;        (* [repr(x)] *)
  str_repr : string -> string      (* [repr(s)] of a str *)
}.

(** ** JSON values, as [json.loads] builds them

    The keys of a [JObj] are pairwise distinct ([json.loads] keeps the
    last of two equal keys), in the order of the text. *)

#[warnings="-register-all"] Inductive json (F : Type) : Type :=
| JNull
| JBool (b : bool)
| JInt (n : Z)
| JFloat (x : F)
| JStr (s : string)
| JArr (l : list (json F))
| JObj (kvs : list (string * json F)).

Arguments JNull {F}.
Arguments JBool {F} b.
Arguments JInt {F} n.
Arguments JFloat {F} x.
Arguments JStr {F} s.
Arguments JArr {F} l.
Arguments JObj {F} kvs.

Section Python.

Context {F : Type} `{PyFloat F}.

(** [d.get(k)] on the entries of a dict. *)
Fixpoint dict_get (kvs : list (string * json F)) (k : string) : option (json F) :=
  match kvs with
  | [] => None
  | (k', v) :: kvs' => if String.eqb k' k then Some v else dict_get kvs' k
  end.

(** [o.get(k, dflt)]: only a dict has the method. *)
Definition py_get (o : json F) (k : string) (dflt : json F) : result (json F) :=
  match o with
  | JObj kvs => Ok (default dflt (dict_get kvs k))
  | _ => Raise AttributeError
  end.

(** [len(o)] *)
Definition py_len (o : json F) : result Z :=
  match o with
  | JArr l => Ok (Z.of_nat (length l))
  | JStr s => Ok (Z.of_nat (String.length s))
  | JObj kvs => Ok (Z.of_nat (length kvs))
  | _ => Raise TypeError
  end.

(** [bool(o)] *)
Definition py_bool (o : json F) : bool :=
  match o with
  | JNull => false
  | JBool b => b
  | JInt n => negb (n =? 0)
  | JFloat x => float_bool x
  | JStr s => negb (String.eqb s "")
  | JArr l => match l with [] => false | _ => true end
  | JObj kvs => match kvs with [] => false | _ => true end
  end.

(** [for c in o]: the items the loop sees. *)
Definition py_iter (o : json F) : result (list (json F)) :=
  match o with
  | JArr l => Ok l
  | JStr s => Ok (map JStr (chars s))
  | JObj kvs => Ok (map (fun kv => JStr (fst kv)) kvs)
  | _ => Raise TypeError
  end.

(** [o[i]] for an int index [i >= 0]. *)
Definition py_getitem (o : json F) (i : nat) : result (json F) :=
  match o with
  | JArr l => match l !! i with Some x => Ok x | None => Raise IndexError end
  | JStr s => match chars s !! i with Some c => Ok (JStr c) | None => Raise IndexError end
  | JObj _ => Raise KeyError
  | _ => Raise TypeError
  end.

Definition is_str (s : string) (o : json F) : bool :=
  match o with
  | JStr s' => String.eqb s' s
  | _ => false
  end.

(** [k in o] for a str [k]. *)
Definition py_in_str (k : string) (o : json F) : result bool :=
  match o with
  | JObj kvs => Ok (bool_decide (is_Some (dict_get kvs k)))
  | JStr s => Ok (contains s k)
  | JArr l => Ok (existsb (is_str k) l)
  | _ => Raise TypeError
  end.

(** [n == o] for an int [n]. *)
Definition py_eq_int (n : Z) (o : json F) : bool :=
  match o with
  | JInt m => n =? m
  | JBool b => n =? (if b then 1 else 0)
  | JFloat x => float_eq_int x n
  | _ => false
  end.

(** [n in l] for an int [n] and a list [l]. *)
Definition py_in_list (n : Z) (l : list (json F)) : bool := existsb (py_eq_int n) l.

(** [o.strip()]: only a str has the method. *)
Definition py_strip (o : json F) : result string :=
  match o with
  | JStr s => Ok (strip s)
  | _ => Raise AttributeError
  end.

(** [repr(o)] and [str(o)] *)
Fixpoint py_repr (o : json F) : string :=
  match o with
  | JNull => "None"
  | JBool b => if b then "True" else "False"
  | JInt n => str_of_int n
  | JFloat x => float_repr x
  | JStr s => str_repr s
  | JArr l => "[" +:+ join ", " (map py_repr l) +:+ "]"
  | JObj kvs =>
      "{" +:+ join ", " (map (fun kv => match kv with
                                        | (k, v) => str_repr k +:+ ": " +:+ py_repr v
                                        end) kvs) +:+ "}"
  end.

Definition py_str (o : json F) : string :=
  match o with
  | JStr s => s
  | _ => py_repr o
  end.

End Python.

(** ** Pricing ([scripts/benchmark_models.py], [calculate_cost])

    [MODEL_PRICING] is the process-wide cache; here it is passed to the
    functions that read it.  [fetch_model_pricing] stores an entry only
    with both of its prices, so an entry that is present is never an
    empty dict. *)

Record Pricing (F : Type) : Type := {
  prompt : F;
  completion : F
}.

Arguments prompt {F} _.
Arguments completion {F} _.

Section Cost.

Context {F : Type} `{PyFloat F}.

Definition calculate_cost (MODEL_PRICING : gmap string (Pricing F))
    (model : string) (prompt_tokens completion_tokens : Z) : F :=
  match MODEL_PRICING !! model with
  | None => float_zero
  | Some pricing =>
      let prompt_cost :=
        float_mul (int_truediv prompt_tokens 1000000) (prompt pricing) in
      let completion_cost :=
        float_mul (int_truediv completion_tokens 1000000) (completion pricing) in
      float_add prompt_cost completion_cost
  end.

End Cost.

(** ** Response evaluator ([scripts/benchmark_models.py], [evaluate_response]) *)

Record TokenUsage : Type := {
  prompt_tokens : Z;
  completion_tokens : Z;
  total_tokens : Z
}.

Record EvaluationResult (F : Type) : Type := {
  valid_json : bool;
  parse_error : option string;
  all_values_present : bool;
  missing_values : list Z;
  unique_answers : bool;
  duplicate_answers : list string;
  clue_count : Z;
  response_time_ms : F;
  clues : json F;
  quality_score : Z;
  token_usage : TokenUsage;
  cost_usd : F
}.

Arguments valid_json {F} _.
Arguments parse_error {F} _.
Arguments all_values_present {F} _.
Arguments missing_values {F} _.
Arguments unique_answers {F} _.
Arguments duplicate_answers {F} _.
Arguments clue_count {F} _.
Arguments response_time_ms {F} _.
Arguments clues {F} _.
Arguments quality_score {F} _.
Arguments token_usage {F} _.
Arguments cost_usd {F} _.

Section Evaluator.

Context {F : Type} `{PyFloat F}.

(** [[c.get("value") for c in clues if "value" in c]] *)
Fixpoint present_values_of (items : list (json F)) : result (list (json F)) :=
  match items with
  | [] => Ok []
  | c :: cs =>
      has <-- py_in_str "value" c ;;
      if has then
        v <-- py_get c "value" JNull ;;
        vs <-- present_values_of cs ;;
        Ok (v :: vs)
      else present_values_of cs
  end.

(** [[v for v in expected_values if v not in present_values]] *)
Definition missing_of (expected_values : list Z) (present_values : list (json F)) : list Z :=
  List.filter (fun v => negb (py_in_list v present_values)) expected_values.

(** [[c.get("response", "").strip().lower() for c in clues if c.get("response")]] *)
Fixpoint responses_of (items : list (json F)) : result (list string) :=
  match items with
  | [] => Ok []
  | c :: cs =>
      cond <-- py_get c "response" JNull ;;
      if py_bool cond then
        r <-- py_get c "response" (JStr "") ;;
        s <-- py_strip r ;;
        rs <-- responses_of cs ;;
        Ok (lower s :: rs)
      else responses_of cs
  end.

(** The loop [for i, r in enumerate(responses)], started at index [i]
    with the dict [seen] and the list [duplicates] built so far.  The
    label of an entry is read at [clues[i]], [i] being the position of
    [r] in [responses]. *)
Fixpoint find_duplicates (clues : json F) (i : nat) (responses : list string)
    (seen : gmap string Z) (duplicates : list string) : result (list string) :=
  match responses with
  | [] => Ok duplicates
  | r :: rs =>
      duplicates' <--
        (if bool_decide (is_Some (seen !! r)) then
           c <-- py_getitem clues i ;;
           v <-- py_get c "value" JNull ;;
           Ok (duplicates ++ ["Value " +:+ py_str v +:+ ": " +:+ r])
         else Ok duplicates) ;;
      find_duplicates clues (S i) rs
        (<[r := default 0 (seen !! r) + 1]> seen) duplicates'
  end.

(** The loop [for clue in clues] of the scoring: one point off for a
    falsy ["clue"], one for a falsy ["response"]. *)
Fixpoint field_penalties (items : list (json F)) (score : Z) : result Z :=
  match items with
  | [] => Ok score
  | clue :: cs =>
      t <-- py_get clue "clue" JNull ;;
      let score := if py_bool t then score else score - 1 in
      r <-- py_get clue "response" JNull ;;
      let score := if py_bool r then score else score - 1 in
      field_penalties cs score
  end.

(** The dict [result] as it is first built. *)
Definition initial_result (MODEL_PRICING : gmap string (Pricing F))
    (elapsed_time : F) (model : string) (prompt_tokens completion_tokens : Z)
    : EvaluationResult F :=
  {| valid_json := false;
     parse_error := None;
     all_values_present := false;
     missing_values := [];
     unique_answers := false;
     duplicate_answers := [];
     clue_count := 0;
     response_time_ms := float_round (float_mul elapsed_time (float_of_int 1000)) 2;
     clues := JArr [];
     quality_score := 0;
     token_usage := {| prompt_tokens := prompt_tokens;
                       completion_tokens := completion_tokens;
                       total_tokens := prompt_tokens + completion_tokens |};
     cost_usd := calculate_cost MODEL_PRICING model prompt_tokens completion_tokens |}.

(** The body of the [try] block once [json.loads] has returned [data]. *)
Definition evaluate_data (result0 : EvaluationResult F) (data : json F)
    (expected_values : list Z) : result (EvaluationResult F) :=
  clues <-- py_get data "clues" (JArr []) ;;
  n <-- py_len clues ;;
  if negb (py_bool clues) then
    Ok {| valid_json := true;
          parse_error := Some "No clues found in response";
          all_values_present := all_values_present result0;
          missing_values := missing_values result0;
          unique_answers := unique_answers result0;
          duplicate_answers := duplicate_answers result0;
          clue_count := n;
          response_time_ms := response_time_ms result0;
          clues := clues;
          quality_score := quality_score result0;
          token_usage := token_usage result0;
          cost_usd := cost_usd result0 |}
  else
    items <-- py_iter clues ;;
    present_values <-- present_values_of items ;;
    let missing := missing_of expected_values present_values in
    responses <-- responses_of items ;;
    let unique_responses : gset string := list_to_set responses in
    duplicates <-- find_duplicates clues 0 responses ∅ [] ;;
    let score := 10 in
    let score := score - Z.of_nat (length missing) * 2 in
    let score := score - Z.of_nat (length duplicates) * 3 in
    score <-- field_penalties items score ;;
    let score := if n <? 5 then score - (5 - n) * 1 else score in
    Ok {| valid_json := true;
          parse_error := parse_error result0;
          all_values_present := bool_decide (length missing = 0%nat);
          missing_values := missing;
          unique_answers := bool_decide (length responses = size unique_responses);
          duplicate_answers := duplicates;
          clue_count := n;
          response_time_ms := response_time_ms result0;
          clues := clues;
          quality_score := Z.max 0 (Z.min 10 score);
          token_usage := token_usage result0;
          cost_usd := cost_usd result0 |}.

(** [evaluate_response].  [loaded] is the outcome of
    [json.loads(response_text)], the first statement of the [try] block:
    the value it returns or the exception it raises.  The handler is
    [except json.JSONDecodeError], and only [json.loads] raises that
    exception, so the handler sees [result] as it was first built. *)
Definition evaluate_response (MODEL_PRICING : gmap string (Pricing F))
    (loaded : result (json F)) (expected_values : list Z)
    (elapsed_time : F) (model : string) (prompt_tokens completion_tokens : Z)
    : result (EvaluationResult F) :=
  let result0 :=
    initial_result MODEL_PRICING elapsed_time model prompt_tokens completion_tokens in
  match loaded with
  | Ok data => evaluate_data result0 data expected_values
  | Raise (JSONDecodeError e) =>
      Ok {| valid_json := valid_json result0;
            parse_error := Some ("JSON parse error: " +:+ slice_to e 50);
            all_values_present := all_values_present result0;
            missing_values := missing_values result0;
            unique_answers := unique_answers result0;
            duplicate_answers := duplicate_answers result0;
            clue_count := clue_count result0;
            response_time_ms := response_time_ms result0;
            clues := clues result0;
            quality_score := quality_score result0;
            token_usage := token_usage result0;
            cost_usd := cost_usd result0 |}
  | Raise e => Raise e
  end.

End Evaluator.

(** ** Prompt builder ([scripts/benchmark_models.py], [build_jeopardy_prompt]) *)

(** The double quote character, as a string. *)
Definition DQ : string := String (ascii_of_nat 34) "".

(** [{...}.get(difficulty, 'Balanced difficulty level.')] *)
Definition difficulty_text (difficulty : string) : string :=
  let table : gmap string string :=
    <["easy" := "Make questions accessible and straightforward."]>
      (<["normal" := "Balanced difficulty level."]>
         (<["hard" := "Make questions challenging and specific."]> ∅)) in
  default "Balanced difficulty level." (table !! difficulty).

Definition value_guidance : gmap Z string :=
  <[200 := "Obvious / very well-known facts"]>
    (<[400 := "Common knowledge within topic"]>
       (<[600 := "Requires familiarity with the topic"]>
          (<[800 := "Niche or specific details"]>
             (<[1000 := "Deep cuts / less obvious information"]> ∅)))).

(** ["\n".join([f"- ${v}: {value_guidance[v]}" for v in [200, 400, 600, 800, 1000]])];
    the five keys are in the table, so the subscript never raises. *)
Definition guidance_text : string :=
  join NL (map (fun v => "- $" +:+ str_of_int v +:+ ": " +:+ value_guidance !!! v)
               [200; 400; 600; 800; 1000]).

(** The budget of the slice [reference_material[:3000]]. *)
Definition REFERENCE_BUDGET : Z := 3000.

(** [ref_material_text]: empty unless [reference_material] is a
    non-empty str. *)
Definition ref_material_text (reference_material : option string) : string :=
  match reference_material with
  | Some text =>
      if negb (String.eqb text "") then
        NL +:+ "Source material to use for questions:" +:+ NL
        +:+ slice_to text REFERENCE_BUDGET +:+ NL
        +:+ NL
        +:+ "All clues must be answerable from the source material above." +:+ NL
      else ""
  | None => ""
  end.

(** The returned f-string, up to [{ref_material_text}] ... *)
Definition prompt_head (category content_topic theme difficulty : string) : string :=
  "Generate 5 Jeopardy-style clues for the category: " +:+ DQ +:+ category +:+ DQ +:+ NL
  +:+ NL
  +:+ "Content Topic: " +:+ DQ +:+ content_topic +:+ DQ +:+ NL
  +:+ "Theme: " +:+ theme +:+ NL
  +:+ NL
  +:+ difficulty_text difficulty +:+ NL
  +:+ NL
  +:+ "Value guidelines:" +:+ NL
  +:+ guidance_text +:+ NL.

(** One line of the JSON sample at the end of the prompt. *)
Definition sample_clue (value : Z) (last : bool) : string :=
  "    {" +:+ DQ +:+ "value" +:+ DQ +:+ ": " +:+ str_of_int value
  +:+ ", " +:+ DQ +:+ "clue" +:+ DQ +:+ ": " +:+ DQ +:+ "..." +:+ DQ
  +:+ ", " +:+ DQ +:+ "response" +:+ DQ +:+ ": " +:+ DQ +:+ "..." +:+ DQ +:+ "}"
  +:+ (if last then "" else ",") +:+ NL.

(** ... and after it. *)
Definition prompt_tail : string :=
  NL
  +:+ "REQUIREMENTS:" +:+ NL
  +:+ "- Each clue must have a DIFFERENT unique answer" +:+ NL
  +:+ "- Clues must be in proper Jeopardy form (answers given as questions)" +:+ NL
  +:+ "- Clues should be clear, accurate, and engaging" +:+ NL
  +:+ "- Do NOT use the category name or any form of it in your clues" +:+ NL
  +:+ NL
  +:+ "Return JSON format:" +:+ NL
  +:+ "{" +:+ NL
  +:+ "  " +:+ DQ +:+ "clues" +:+ DQ +:+ ": [" +:+ NL
  +:+ sample_clue 200 false
  +:+ sample_clue 400 false
  +:+ sample_clue 600 false
  +:+ sample_clue 800 false
  +:+ sample_clue 1000 true
  +:+ "  ]" +:+ NL
  +:+ "}".

Definition build_jeopardy_prompt (category content_topic theme difficulty : string)
    (reference_material : option string) : string :=
  prompt_head category content_topic theme difficulty
  +:+ ref_material_text reference_material
  +:+ prompt_tail.

(** ** Inputs and shapes used in the statements *)

(** The ladder that [test_model] passes as [expected_values]. *)
Definition CANONICAL_LADDER : list Z := [200; 400; 600; 800; 1000].

(** The clue object [{"value": v, "clue": c, "response": r}]. *)
Definition clue_obj {F : Type} (v : Z) (c r : string) : json F :=
  JObj [("value", JInt v); ("clue", JStr c); ("response", JStr r)].

(** The parsed payload [{"clues": [...]}]. *)
Definition payload {F : Type} (clues : list (json F)) : json F :=
  JObj [("clues", JArr clues)].

(** The normal form of a response text: [r.strip().lower()]. *)
Definition normalize (r : string) : string := lower (strip r).

(** A clue entry the evaluator can read: a dict whose ["response"], when
    truthy, is a str. *)
Definition readable_clue {F : Type} `{PyFloat F} (c : json F) : bool :=
  match c with
  | JObj kvs =>
      match dict_get kvs "response" with
      | Some r => negb (py_bool r) || match r with JStr _ => true | _ => false end
      | None => true
      end
  | _ => false
  end.




(** [n] copies of the character [c]. *)
Fixpoint replicate_char (n : nat) (c : ascii) : string :=
  match n with
  | O => ""
  | S n' => String c (replicate_char n' c)
  end.

(** A clue of the data model, and its JSON object. *)
Record Clue : Type := { value : Z; clue : string; response : string }.

Definition clue_json {F : Type} (k : Clue) : json F :=
  clue_obj (value k) (clue k) (response k).

(** A payload fenced twice. *)
Definition fenced_twice : string :=
  "```json" +:+ NL +:+ "```json" +:+ NL +:+ "{}" +:+ NL +:+ "```" +:+ NL +:+ "```".

(** ** The outcome of a successful evaluation *)

Section Evaluated.

Context {F : Type} `{PyFloat F}.

(** What a successful run of the [try] body has computed. *)
Inductive evaluated (result0 : EvaluationResult F) (expected_values : list Z)
    (clues : json F) (n : Z) (r : EvaluationResult F) : Prop :=
| evaluated_no_clues :
    py_bool clues = false ->
    parse_error r = Some "No clues found in response" ->
    quality_score r = quality_score result0 ->
    evaluated result0 expected_values clues n r
| evaluated_scored (items present_values : list (json F))
    (responses duplicates : list string) (score : Z) :
    py_bool clues = true ->
    py_iter clues = Ok items ->
    present_values_of items = Ok present_values ->
    responses_of items = Ok responses ->
    find_duplicates clues 0 responses ∅ [] = Ok duplicates ->
    field_penalties items
      (10 - Z.of_nat (length (missing_of expected_values present_values)) * 2
          - Z.of_nat (length duplicates) * 3) = Ok score ->
    parse_error r = parse_error result0 ->
    missing_values r = missing_of expected_values present_values ->
    all_values_present r
    = bool_decide (length (missing_of expected_values present_values) = 0%nat) ->
    unique_answers r
    = bool_decide (length responses = size (list_to_set responses : gset string)) ->
    duplicate_answers r = duplicates ->
    quality_score r
    = Z.max 0 (Z.min 10 (if n <? 5 then score - (5 - n) * 1 else score)) ->
    evaluated result0 expected_values clues n r.

End Evaluated.

(** ** An implementation of the float interface with exact rationals

    It runs the definitions on concrete inputs: arithmetic is exact,
    [round] goes to the nearest multiple of [10^-ndigits], [repr] shows
    the fraction. *)

Module ExactFloat.

Definition round (x : Q) (ndigits : Z) : Q :=
  let scale := inject_Z (10 ^ ndigits) in
  Qdiv (inject_Z (Qfloor (Qplus (Qmult x scale) (1 # 2)))) scale.

Definition repr (x : Q) : string :=
  str_of_int (Qnum x) +:+ "/" +:+ str_of_int (Zpos (Qden x)).

#[export] Instance exact_float : PyFloat Q := {|
  float_zero := 0%Q;
  float_of_int := inject_Z;
  int_truediv a b := Qdiv (inject_Z a) (inject_Z b);
  float_mul := Qmult;
  float_add := Qplus;
  float_round := round;
  float_eq_int x n := Qeq_bool x (inject_Z n);
  float_bool x := negb (Qeq_bool x 0%Q);
  float_repr := repr;
  str_repr s := "'" +:+ s +:+ "'"
|}.

End ExactFloat.

Import ExactFloat.


(** * The rest of the scripts *)

(** ** Payloads that follow the data model *)

(** The clues of [rows] without text, and those without response. *)
Definition untitled (rows : list Clue) : list Clue :=
  List.filter (fun k => String.eqb (clue k) "") rows.

Definition silent (rows : list Clue) : list Clue :=
  List.filter (fun k => String.eqb (response k) "") rows.

(** The clues of [rows] that carry a response, and their normal forms:
    what the evaluator compares. *)
Definition speaking (rows : list Clue) : list Clue :=
  List.filter (fun k => negb (String.eqb (response k) "")) rows.

Definition normal_responses (rows : list Clue) : list string :=
  map (fun k => normalize (response k)) (speaking rows).

(** Three clues that answer Rome, in three spellings. *)
Definition rome_three_times : list Clue :=
  [ {| value := 200; clue := "a"; response := "Rome" |};
    {| value := 400; clue := "b"; response := " ROME " |};
    {| value := 600; clue := "c"; response := "rome" |} ].

(** A complete answer: the five values of the ladder, in some order,
    with five different responses. *)
Definition complete_rows : list Clue :=
  [ {| value := 1000; clue := "e"; response := "Madrid" |};
    {| value := 200; clue := "a"; response := "Rome" |};
    {| value := 400; clue := "b"; response := "Paris" |};
    {| value := 600; clue := "c"; response := "Oslo" |};
    {| value := 800; clue := "d"; response := "Berlin" |} ].

(** ** The third cleaner ([test_zai_direct.py], the lines under "Clean JSON")

    The loop [for prefix in ['```json', '```']] tries both prefixes in
    turn, the second one on what the first has left. *)
Definition content_clean (content : string) : string :=
  let content_clean := strip content in
  let content_clean :=
    fold_left
      (fun content_clean prefix =>
         if startswith content_clean prefix
         then slice_from content_clean (String.length prefix)
         else content_clean)
      ["```json"; "```"] content_clean in
  let content_clean :=
    if endswith content_clean "```" then slice_to content_clean (-3) else content_clean in
  strip content_clean.

(** ** Variety of the answers ([scripts/quality_compare.py], [assess_quality]) *)

Section Variety.

Context {F : Type} `{PyFloat F}.

(** [o.lower()]: only a str has the method. *)
Definition py_lower (o : json F) : result string :=
  match o with
  | JStr s => Ok (lower s)
  | _ => Raise AttributeError
  end.

(** [[c.get("response", "").lower().strip() for c in clues]] *)
Fixpoint answers_of (items : list (json F)) : result (list string) :=
  match items with
  | [] => Ok []
  | c :: cs =>
      r <-- py_get c "response" (JStr "") ;;
      s <-- py_lower r ;;
      rest <-- answers_of cs ;;
      Ok (strip s :: rest)
  end.

(** The number printed as "Variety": [len(set(answers))]. *)
Definition variety (clues : json F) : result nat :=
  items <-- py_iter clues ;;
  answers <-- answers_of items ;;
  Ok (size (list_to_set answers : gset string)).

End Variety.

(** ** One benchmark run ([scripts/benchmark_models.py], [test_model]) *)

(** The evaluation dict of the [except] branch: it has these six keys
    and no others. *)
Module Failure.

Record t (F : Type) : Type := {
  valid_json : bool;
  parse_error : option string;
  response_time_ms : F;
  quality_score : Z;
  token_usage : TokenUsage;
  cost_usd : F
}.

Arguments valid_json {F} _.
Arguments parse_error {F} _.
Arguments response_time_ms {F} _.
Arguments quality_score {F} _.
Arguments token_usage {F} _.
Arguments cost_usd {F} _.

End Failure.

(** The value under ["evaluation"]: the dict of [evaluate_response] or
    the dict of the [except] branch. *)
Inductive Evaluation (F : Type) : Type :=
| Evaluated (r : EvaluationResult F)
| Failed (f : Failure.t F).

Arguments Evaluated {F} r.
Arguments Failed {F} f.

Record TestResult (F : Type) : Type := {
  success : bool;
  response_text : option string;
  evaluation : Evaluation F;
  error : option string
}.

Arguments success {F} _.
Arguments response_text {F} _.
Arguments evaluation {F} _.
Arguments error {F} _.

(** What [client.chat.completions.create] and the reads of its reply
    give: the message content (possibly [None]) with the usage
    (possibly [None], else prompt and completion tokens), or an
    exception with its message. *)
Inductive ApiOutcome : Type :=
| ApiReply (content : option string) (usage : option (Z * Z))
| ApiFailure (message : string).

(** [content or ""] *)
Definition or_empty (content : option string) : string :=
  match content with
  | Some text => if String.eqb text "" then "" else text
  | None => ""
  end.

Section Driver.

Context {F : Type} `{PyFloat F}.

(** [json.loads], and [str(e)] of an exception. *)
Variable json_loads : string -> result (json F).
Variable exn_str : exn -> string.

(** The dict returned by the [except Exception] branch. *)
Definition failure_result (message : string) (elapsed : F) : TestResult F :=
  {| success := false;
     response_text := None;
     evaluation :=
       Failed {| Failure.valid_json := false;
                 Failure.parse_error := Some message;
                 Failure.response_time_ms :=
                   float_round (float_mul elapsed (float_of_int 1000)) 2;
                 Failure.quality_score := 0;
                 Failure.token_usage := {| prompt_tokens := 0;
                                           completion_tokens := 0;
                                           total_tokens := 0 |};
                 Failure.cost_usd := float_zero |};
     error := Some message |}.

(** [test_model], from the outcome [api] of the request on.  [elapsed]
    is the time read after the reply, [elapsed_failure] the time read
    in the [except] branch.  The statements that clean the reply are
    those of [clean_response]. *)
Definition test_model (MODEL_PRICING : gmap string (Pricing F)) (model : string)
    (api : ApiOutcome) (elapsed elapsed_failure : F) : TestResult F :=
  match api with
  | ApiReply content usage =>
      let response_text := or_empty content in
      let prompt_tokens := match usage with Some u => fst u | None => 0 end in
      let completion_tokens := match usage with Some u => snd u | None => 0 end in
      let response_text := clean_response response_text in
      match evaluate_response MODEL_PRICING (json_loads response_text)
              [200; 400; 600; 800; 1000] elapsed model
              prompt_tokens completion_tokens with
      | Ok evaluation =>
          {| success := true;
             response_text := Some response_text;
             evaluation := Evaluated evaluation;
             error := None |}
      | Raise e => failure_result (exn_str e) elapsed_failure
      end
  | ApiFailure message => failure_result message elapsed_failure
  end.

End Driver.

(** ** The summary table ([scripts/benchmark_models.py], [print_results]) *)

Section Summary.

Context {F : Type}.

(** [e["valid_json"]], [e["all_values_present"]], [e["unique_answers"]]
    on an evaluation dict: a key that the dict lacks raises [KeyError]. *)
Definition get_valid_json (e : Evaluation F) : result bool :=
  match e with
  | Evaluated r => Ok (valid_json r)
  | Failed f => Ok (Failure.valid_json f)
  end.

Definition get_all_values_present (e : Evaluation F) : result bool :=
  match e with
  | Evaluated r => Ok (all_values_present r)
  | Failed _ => Raise KeyError
  end.

Definition get_unique_answers (e : Evaluation F) : result bool :=
  match e with
  | Evaluated r => Ok (unique_answers r)
  | Failed _ => Raise KeyError
  end.

(** [sum(1 for r in results if r["evaluation"][key])] *)
Fixpoint count_where (get : Evaluation F -> result bool) (results : list (TestResult F))
    : result Z :=
  match results with
  | [] => Ok 0
  | r :: rs =>
      b <-- get (evaluation r) ;;
      n <-- count_where get rs ;;
      Ok (if b then 1 + n else n)
  end.

(** The first three statements of the row of one model: [valid_count],
    [all_values_count], [unique_count]. *)
Definition summary_counts (results : list (TestResult F)) : result (Z * Z * Z) :=
  valid_count <-- count_where get_valid_json results ;;
  all_values_count <-- count_where get_all_values_present results ;;
  unique_count <-- count_where get_unique_answers results ;;
  Ok (valid_count, all_values_count, unique_count).

End Summary.

(** ** Quality of a generated game ([benchmark_ai.py], [evaluate_quality]) *)

Module Quality.

(** The dict that [evaluate_quality] returns.  The dict of the early
    return has no ["creative_titles"]: there the field is [None]. *)
Record t : Type := {
  valid_json : bool;
  has_categories : bool;
  category_count : Z;
  total_clues : Z;
  complete_clues : Z;
  creative_titles : option Z;
  issues : list string
}.

End Quality.

(** The dict of the early return. *)
Definition invalid_quality : Quality.t :=
  {| Quality.valid_json := false;
     Quality.has_categories := false;
     Quality.category_count := 0;
     Quality.total_clues := 0;
     Quality.complete_clues := 0;
     Quality.creative_titles := None;
     Quality.issues := ["No valid JSON or missing categories"] |}.

(** The variables of the loop over the categories. *)
Record QualityState : Type := {
  st_issues : list string;
  st_total_clues : Z;
  st_complete_clues : Z;
  st_title_creativity : list string
}.

Section QualityEvaluation.

Context {F : Type} `{PyFloat F}.

(** [sorted(actual_values) != sorted(expected_values)]: the comparison
    of the two sorted lists, or the [TypeError] of [sorted] on values
    that have no order. *)
Variable sorted_differ : list (json F) -> list Z -> result bool.

(** [[c.get("value") for c in clues]] *)
Fixpoint actual_values_of (items : list (json F)) : result (list (json F)) :=
  match items with
  | [] => Ok []
  | c :: cs =>
      v <-- py_get c "value" JNull ;;
      vs <-- actual_values_of cs ;;
      Ok (v :: vs)
  end.

(** The loop [for clue in clues] of one category, appending to
    [issues]. *)
Fixpoint check_fields (cat : json F) (items : list (json F)) (issues : list string)
    : result (list string) :=
  match items with
  | [] => Ok issues
  | clue :: cs =>
      t <-- py_get clue "clue" JNull ;;
      issues <--
        (if py_bool t then Ok issues
         else (title <-- py_get cat "title" (JStr "unknown") ;;
               Ok (issues ++ ["Missing clue text in category '" +:+ py_str title +:+ "'"]))) ;;
      r <-- py_get clue "response" JNull ;;
      issues <--
        (if py_bool r then Ok issues
         else (title <-- py_get cat "title" (JStr "unknown") ;;
               Ok (issues ++ ["Missing response in category '" +:+ py_str title +:+ "'"]))) ;;
      check_fields cat cs issues
  end.

(** The body of the loop [for cat in categories]. *)
Definition check_category (cat : json F) (st : QualityState) : result QualityState :=
  clues <-- py_get cat "clues" (JArr []) ;;
  n <-- py_len clues ;;
  let total_clues := st_total_clues st + n in
  complete_and_issues <--
    (if n =? 5 then Ok (st_complete_clues st + 1, st_issues st)
     else (title <-- py_get cat "title" (JStr "unknown") ;;
           Ok (st_complete_clues st,
               st_issues st ++ ["Category '" +:+ py_str title +:+ "' has "
                                +:+ str_of_int n +:+ " clues instead of 5"]))) ;;
  let complete_clues := fst complete_and_issues in
  let issues := snd complete_and_issues in
  items <-- py_iter clues ;;
  actual_values <-- actual_values_of items ;;
  differ <-- sorted_differ actual_values [200; 400; 600; 800; 1000] ;;
  issues <--
    (if differ then
       (title <-- py_get cat "title" (JStr "unknown") ;;
        Ok (issues ++ ["Category '" +:+ py_str title +:+ "' has incorrect values: "
                       +:+ py_repr (JArr actual_values)]))
     else Ok issues) ;;
  issues <-- check_fields cat items issues ;;
  title <-- py_get cat "title" (JStr "") ;;
  content_topic <-- py_get cat "contentTopic" (JStr "") ;;
  let issues :=
    if negb (py_bool title) || negb (py_bool content_topic)
    then issues ++ ["Missing title or contentTopic in category"] else issues in
  title_creativity <--
    (if py_bool title && py_bool content_topic then
       (t <-- py_lower title ;;
        ct <-- py_lower content_topic ;;
        if negb (contains ct t)
        then Ok (st_title_creativity st ++ [py_str title])
        else Ok (st_title_creativity st))
     else Ok (st_title_creativity st)) ;;
  Ok {| st_issues := issues;
        st_total_clues := total_clues;
        st_complete_clues := complete_clues;
        st_title_creativity := title_creativity |}.

Fixpoint check_categories (cats : list (json F)) (st : QualityState)
    : result QualityState :=
  match cats with
  | [] => Ok st
  | cat :: rest =>
      st' <-- check_category cat st ;;
      check_categories rest st'
  end.

Definition evaluate_quality (data : json F) : result Quality.t :=
  missing <--
    (if negb (py_bool data) then Ok true
     else (has <-- py_in_str "categories" data ;; Ok (negb has))) ;;
  if missing then Ok invalid_quality
  else
    categories <-- py_get data "categories" (JArr []) ;;
    actual_categories <-- py_len categories ;;
    let issues :=
      if negb (actual_categories =? 6)
      then ["Expected 6 categories, got " +:+ str_of_int actual_categories]
      else [] in
    cats <-- py_iter categories ;;
    st <-- check_categories cats
             {| st_issues := issues; st_total_clues := 0;
                st_complete_clues := 0; st_title_creativity := [] |} ;;
    Ok {| Quality.valid_json := true;
          Quality.has_categories := 0 <? actual_categories;
          Quality.category_count := actual_categories;
          Quality.total_clues := st_total_clues st;
          Quality.complete_clues := st_complete_clues st;
          Quality.creative_titles := Some (Z.of_nat (length (st_title_creativity st)));
          Quality.issues := st_issues st |}.

End QualityEvaluation.

(** The value that [print_result] returns: [status == "PASS"].  Between
    the status and the [return], the function prints
    [quality['creative_titles']]. *)
Definition print_result (quality : Quality.t) : result bool :=
  let status :=
    Quality.valid_json quality && (Quality.complete_clues quality =? 6) in
  match Quality.creative_titles quality with
  | Some _ => Ok status
  | None => Raise KeyError
  end.

(** A category of the data model, its JSON object, and a game. *)
Module Category.

Record t : Type := {
  title : string;
  contentTopic : string;
  clues : list Clue
}.

End Category.

Definition category_json {F : Type} (k : Category.t) : json F :=
  JObj [("title", JStr (Category.title k));
        ("contentTopic", JStr (Category.contentTopic k));
        ("clues", JArr (map clue_json (Category.clues k)))].

Definition game {F : Type} (categories : list Category.t) : json F :=
  JObj [("categories", JArr (map category_json categories))].

(** A category as the prompt asks for it: both names, and five clues
    with their texts that carry the five values. *)
Definition well_formed_category (k : Category.t) : Prop :=
  Category.title k <> "" /\ Category.contentTopic k <> ""
  /\ map value (Category.clues k) ≡ₚ [200; 400; 600; 800; 1000]
  /\ Forall (fun c => clue c <> "" /\ response c <> "") (Category.clues k).

(** A title counts as creative when its lower case does not occur in
    the lower case of the topic. *)
Definition creative (k : Category.t) : bool :=
  negb (contains (lower (Category.contentTopic k)) (lower (Category.title k))).

(** The comparison of the sorted lists on lists of ints, where sorting
    cannot fail: the lists differ unless they hold the same values the
    same number of times. *)
Fixpoint ints_of {F : Type} (l : list (json F)) : option (list Z) :=
  match l with
  | [] => Some []
  | JInt n :: l' => option_map (cons n) (ints_of l')
  | _ => None
  end.

Definition same_multiset (vs ws : list Z) : bool :=
  forallb (fun v => Nat.eqb (count_occ Z.eq_dec vs v) (count_occ Z.eq_dec ws v)) (vs ++ ws).

Definition sorted_differ_ints {F : Type} (actual : list (json F)) (expected : list Z)
    : result bool :=
  match ints_of actual with
  | Some vs => Ok (negb (same_multiset vs expected))
  | None => Raise TypeError
  end.

(** Six categories as the prompt asks for them. *)
Definition sample_category (title topic : string) : Category.t :=
  {| Category.title := title;
     Category.contentTopic := topic;
     Category.clues := complete_rows |}.

Definition sample_game : list Category.t :=
  [ sample_category "Geography Genius" "World Capitals";
    sample_category "Word Wizards" "Literary Terms";
    sample_category "Capitals" "World Capitals";
    sample_category "Treaties" "Treaties before 1939";
    sample_category "Rising Powers" "Rearmament";
    sample_category "On the Brink" "The summer of 1939" ].

(** ** The environment file ([scripts/benchmark_models.py], [load_env]) *)

Module PySplit.

(** [s.partition(sep)] for a non-empty [sep]: the text before and the
    text after the first occurrence, if there is one. *)
Fixpoint partition (s sep : string) : option (string * string) :=
  if String.prefix sep s then Some ("", slice_from s (String.length sep))
  else match s with
       | EmptyString => None
       | String c s' =>
           match partition s' sep with
           | Some (before, after) => Some (String c before, after)
           | None => None
           end
       end.

(** [s.split(sep)]: the occurrences are found from the left; a text of
    [n] characters has at most [n] of them. *)
Fixpoint split_upto (n : nat) (s sep : string) : list string :=
  match n with
  | O => [s]
  | S n' =>
      match partition s sep with
      | Some (before, after) => before :: split_upto n' after sep
      | None => [s]
      end
  end.

Definition split (s sep : string) : list string := split_upto (String.length s) s sep.

(** [s.split(sep, 1)] *)
Definition split_once (s sep : string) : list string :=
  match partition s sep with
  | Some (before, after) => [before; after]
  | None => [s]
  end.

(** [s.replace(old, new)]: every occurrence, from the left. *)
Fixpoint replace_upto (n : nat) (s old new : string) : string :=
  match n with
  | O => s
  | S n' =>
      match partition s old with
      | Some (before, after) => before +:+ new +:+ replace_upto n' after old new
      | None => s
      end
  end.

Definition replace (s old new : string) : string :=
  replace_upto (String.length s) s old new.

End PySplit.

(** The body of the loop [for line in f]: the dict after the line, or
    [None] for the [ValueError] of the unpacking [key, value = ...].
    [line.split('${')] has a second item because ['${'] occurs in the
    line. *)
Definition load_env_line (env_vars : gmap string string) (line : string)
    : option (gmap string string) :=
  let line := strip line in
  if negb (String.eqb line "") && negb (startswith line "#") && contains line "=" then
    let line :=
      if contains line "${" then
        let var_name :=
          default "" (PySplit.split (default "" (PySplit.split line "${" !! 1%nat)) "}"
                        !! 0%nat) in
        PySplit.replace line ("${" +:+ var_name +:+ "}") (default "" (env_vars !! var_name))
      else line in
    match PySplit.split_once line "=" with
    | [key; value] => Some (<[strip key := strip value]> env_vars)
    | _ => None
    end
  else Some env_vars.

Fixpoint load_env_lines (env_vars : gmap string string) (lines : list string)
    : option (gmap string string) :=
  match lines with
  | [] => Some env_vars
  | line :: rest =>
      match load_env_line env_vars line with
      | Some env_vars' => load_env_lines env_vars' rest
      | None => None
      end
  end.

(** [load_env]: [file] is the list of the lines of [.env], or [None]
    when the file does not exist. *)
Definition load_env (file : option (list string)) : option (gmap string string) :=
  match file with
  | Some lines => load_env_lines ∅ lines
  | None => Some ∅
  end.

(** ** From the reply to the verdict ([benchmark_ai.py], [extract_json] and [main]) *)

Section Benchmark.

Context {F : Type} `{PyFloat F}.

Variable json_loads : string -> result (json F).
Variable sorted_differ : list (json F) -> list Z -> result bool.

(** [extract_json]: the parsed value, or [None] after a
    [JSONDecodeError]. *)
Definition extract_json (content : string) : result (json F) :=
  match json_loads (extract_json_text content) with
  | Ok data => Ok data
  | Raise (JSONDecodeError _) => Ok JNull
  | Raise e => Raise e
  end.

(** The statements of [main] between the call of the model and
    [results.append]: the report and the verdict for the reply
    [content]. *)
Definition judge_reply (content : string) : result (Quality.t * bool) :=
  data <-- extract_json content ;;
  quality <-- evaluate_quality sorted_differ data ;;
  passed <-- print_result quality ;;
  Ok (quality, passed).

End Benchmark.

(** ** Previews of long texts ([print_comparison], [print_results], [quick_test])

    [text[:n] + "..." if len(text) > n else text] *)
Definition preview (n : nat) (text : string) : string :=
  if (n <? String.length text)%nat then slice_to text (Z.of_nat n) +:+ "..." else text.
(** * Properties *)

(** ** Strings *)

Lemma append_nil_l (s : string) : "" +:+ s = s.
Proof. reflexivity. Qed.

Lemma append_cons (c : ascii) (a b : string) : String c a +:+ b = String c (a +:+ b).
Proof. reflexivity. Qed.

Lemma append_nil_r (s : string) : s +:+ "" = s.
Proof.
  induction s as [|c s IH]; [reflexivity |]. now rewrite append_cons, IH.
Qed.

Lemma append_assoc (a b c : string) : (a +:+ b) +:+ c = a +:+ (b +:+ c).
Proof.
  induction a as [|x a IH]; [reflexivity |]. now rewrite !append_cons, IH.
Qed.

Lemma length_append (a b : string) :
  String.length (a +:+ b) = (String.length a + String.length b)%nat.
Proof.
  induction a as [|x a IH]; [reflexivity |]. rewrite append_cons. simpl. now rewrite IH.
Qed.

Lemma substring_0_0 (s : string) : substring 0 0 s = "".
Proof. destruct s; reflexivity. Qed.

Lemma substring_0_append (a b : string) : substring 0 (String.length a) (a +:+ b) = a.
Proof.
  induction a as [|x a IH]; [apply substring_0_0 |].
  rewrite append_cons. simpl. now rewrite IH.
Qed.

Lemma substring_0_length (n : nat) (s : string) :
  (n <= String.length s)%nat -> String.length (substring 0 n s) = n.
Proof.
  revert s. induction n as [|n IH]; intros s Hn.
  - now rewrite substring_0_0.
  - destruct s as [|c s]; simpl in *; [lia |]. rewrite IH; [reflexivity | lia].
Qed.

Lemma substring_0_prefix (n : nat) (s : string) : String.prefix (substring 0 n s) s = true.
Proof.
  revert s. induction n as [|n IH]; intros s.
  - rewrite substring_0_0. now destruct s.
  - destruct s as [|c s]; simpl; [reflexivity |].
    rewrite IH. destruct (ascii_dec c c); congruence.
Qed.

Lemma endswith_refl (p : string) : endswith p p = true.
Proof. destruct p; cbn [endswith]; [reflexivity | now rewrite String.eqb_refl]. Qed.

Lemma endswith_append (a p : string) : endswith (a +:+ p) p = true.
Proof.
  induction a as [|x a IH]; [apply endswith_refl |].
  rewrite append_cons. cbn [endswith]. rewrite IH. apply orb_true_r.
Qed.

Lemma slice_to_append (a p : string) :
  (0 < String.length p)%nat ->
  slice_to (a +:+ p) (- Z.of_nat (String.length p)) = a.
Proof.
  intros Hp. unfold slice_to. rewrite length_append.
  destruct (Z.ltb_spec (- Z.of_nat (String.length p)) 0) as [Hlt|Hge]; [|lia].
  replace (Z.to_nat _) with (String.length a) by lia. apply substring_0_append.
Qed.

(** *** [split] and [join] around the first line *)

Lemma contains_cons (c : ascii) (s needle : string) :
  contains (String c s) needle = String.prefix needle (String c s) || contains s needle.
Proof. reflexivity. Qed.


Lemma split_first_line (first rest : string) :
  contains first NL = false ->
  split (first +:+ NL +:+ rest) LF = first :: split rest LF.
Proof.
  induction first as [|c s IH]; intros Hc.
  - unfold NL. rewrite append_nil_l, append_cons, append_nil_l. cbn [split].
    now rewrite Ascii.eqb_refl.
  - rewrite contains_cons in Hc. apply orb_false_elim in Hc as [Hp Hc].
    rewrite append_cons. cbn [split]. unfold NL in Hp. cbn [String.prefix] in Hp.
    destruct (Ascii.eqb_spec c LF) as [->|Hne].
    + destruct (ascii_dec LF LF); [|congruence]. now destruct s.
    + now rewrite (IH Hc).
Qed.

Lemma split_not_nil (s : string) : split s LF <> [].
Proof.
  induction s as [|c s IH]; cbn [split]; [discriminate |].
  destruct (Ascii.eqb c LF); [discriminate |].
  destruct (split s LF); [congruence | discriminate].
Qed.

Lemma join_cons2 (sep a b : string) (l : list string) :
  join sep (a :: b :: l) = a +:+ sep +:+ join sep (b :: l).
Proof. reflexivity. Qed.

Lemma join_split (s : string) : join NL (split s LF) = s.
Proof.
  induction s as [|c s IH]; [reflexivity |]. cbn [split].
  pose proof (split_not_nil s) as Hne.
  destruct (Ascii.eqb_spec c LF) as [->|Hc].
  - destruct (split s LF) as [|l ls] eqn:E; [congruence |].
    rewrite join_cons2, IH. reflexivity.
  - destruct (split s LF) as [|l ls] eqn:E; [congruence |].
    destruct ls as [|l' ls].
    + cbn in IH |- *. now rewrite IH.
    + rewrite join_cons2 in IH |- *. rewrite append_cons. now rewrite IH.
Qed.

Lemma startswith_append (p s : string) : startswith (p +:+ s) p = true.
Proof.
  unfold startswith. induction p as [|c p IH]; [now destruct s |].
  rewrite append_cons. cbn [String.prefix]. rewrite IH.
  destruct (ascii_dec c c); congruence.
Qed.

Lemma startswith_weaken (s a b : string) :
  startswith a b = true -> startswith (a +:+ s) b = true.
Proof.
  unfold startswith. revert a. induction b as [|c b IH]; intros a Hp.
  - now destruct (a +:+ s).
  - destruct a as [|x a]; [discriminate |]. rewrite append_cons.
    cbn [String.prefix] in Hp |- *.
    destruct (ascii_dec c x); [|discriminate]. now apply IH.
Qed.

(** *** [strip] *)

Lemma length_lstrip (s : string) : (String.length (lstrip s) <= String.length s)%nat.
Proof.
  induction s as [|c s IH]; cbn [lstrip]; [reflexivity |].
  destruct (isspace c); cbn [String.length]; lia.
Qed.

Lemma length_rstrip (s : string) : (String.length (rstrip s) <= String.length s)%nat.
Proof.
  induction s as [|c s IH]; cbn [rstrip]; [reflexivity |].
  destruct (rstrip s) as [|x r]; [destruct (isspace c) |]; cbn [String.length] in *; lia.
Qed.

Lemma rstrip_snoc_space (s : string) (c : ascii) :
  isspace c = true -> rstrip (s +:+ String c "") = rstrip s.
Proof.
  intros Hc. induction s as [|x s IH].
  - rewrite append_nil_l. cbn [rstrip]. now rewrite Hc.
  - rewrite append_cons. cbn [rstrip]. now rewrite IH.
Qed.

(** A text that [strip] leaves alone starts with no space, and [rstrip]
    leaves it alone too. *)
Lemma strip_fixed (s : string) :
  strip s = s -> lstrip s = s /\ rstrip s = s.
Proof.
  intros Hs. assert (lstrip s = s) as Hl.
  { destruct s as [|c s]; [reflexivity |]. cbn [lstrip].
    destruct (isspace c) eqn:Hc; [|reflexivity]. exfalso.
    pose proof (length_rstrip (lstrip (String c s))) as H1.
    pose proof (length_lstrip s) as H2.
    fold (strip (String c s)) in H1. rewrite Hs in H1.
    cbn [lstrip] in H1. rewrite Hc in H1. cbn [String.length] in H1. lia. }
  split; [exact Hl |]. unfold strip in Hs. now rewrite Hl in Hs.
Qed.

Lemma strip_trailing_newline (body : string) : strip body = body -> strip (body +:+ NL) = body.
Proof.
  intros Hs. apply strip_fixed in Hs as [Hl Hr].
  destruct body as [|c b]; [reflexivity |].
  unfold strip. rewrite append_cons. cbn [lstrip] in Hl |- *.
  destruct (isspace c) eqn:Hc.
  - exfalso. pose proof (length_lstrip b) as Hlen. rewrite Hl in Hlen.
    cbn [String.length] in Hlen. lia.
  - rewrite <- append_cons. unfold NL. rewrite rstrip_snoc_space by reflexivity.
    exact Hr.
Qed.

(** ** The response cleaner *)

Lemma clean_response_unfenced (s : string) :
  startswith s fence = false -> clean_response s = s.
Proof. intros Hs. unfold clean_response. now rewrite Hs. Qed.

Lemma clean_response_multi_line (first rest : string) :
  startswith first fence = true -> contains first NL = false ->
  clean_response (first +:+ NL +:+ rest)
  = if endswith rest fence then strip (slice_to rest (-3)) else rest.
Proof.
  intros Hf Hn. unfold clean_response.
  rewrite (startswith_weaken _ _ _ Hf), (split_first_line _ _ Hn).
  pose proof (split_not_nil rest) as Hne. pose proof (join_split rest) as Hj.
  destruct (split rest LF) as [|l ls]; [congruence |].
  rewrite Hf. cbn [drop]. now rewrite Hj.
Qed.


Lemma clean_response_wrapped (first body : string) :
  startswith first fence = true -> contains first NL = false ->
  strip body = body ->
  clean_response (first +:+ NL +:+ body +:+ NL +:+ fence) = body.
Proof.
  intros Hf Hn Hb. rewrite clean_response_multi_line by assumption.
  rewrite <- append_assoc, endswith_append.
  change (-3) with (- Z.of_nat (String.length fence)).
  rewrite slice_to_append by (cbn; lia). now apply strip_trailing_newline.
Qed.

(** C6, as amended.  On every text that does not begin with the fence
    marker the cleaner is the identity: the text comes back as it is,
    untrimmed. *)
Theorem clean_response_identity_unfenced (s : string) :
  startswith s fence = false -> clean_response s = s.
Proof. apply clean_response_unfenced. Qed.

Lemma clean_response_identity_unfenced_witness :
  clean_response "{...}" = "{...}" /\ clean_response "  {...}  " = "  {...}  ".
Proof.
  split; apply clean_response_identity_unfenced; reflexivity.
Defined.

(** A text with a leading space and no fence comes back untrimmed. *)
Lemma clean_response_does_not_trim :
  startswith " {}" fence = false
  /\ clean_response " {}" = " {}"
  /\ clean_response " {}" <> strip " {}".
Proof. repeat split. discriminate. Qed.

(** C5, as amended.  Cleaning twice is cleaning once for every text
    whose cleaned form does not begin with the fence marker. *)
Theorem clean_response_idempotent_once_unfenced (s : string) :
  startswith (clean_response s) fence = false ->
  clean_response (clean_response s) = clean_response s.
Proof. apply clean_response_unfenced. Qed.

Lemma clean_response_idempotent_once_unfenced_witness :
  clean_response (clean_response ("```json" +:+ NL +:+ "{...}" +:+ NL +:+ "```"))
  = clean_response ("```json" +:+ NL +:+ "{...}" +:+ NL +:+ "```").
Proof.
  apply clean_response_idempotent_once_unfenced. reflexivity.
Defined.

(** Each call unwraps one fence: the second call changes the result of
    the first. *)
Lemma clean_response_not_idempotent :
  clean_response fenced_twice = "```json" +:+ NL +:+ "{}" +:+ NL +:+ "```"
  /\ clean_response (clean_response fenced_twice) = "{}"
  /\ clean_response (clean_response fenced_twice) <> clean_response fenced_twice.
Proof. repeat split. discriminate. Qed.

(** Idempotence holds on the two usual shapes: no fence at all, and one
    fence around a trimmed payload that does not begin with the marker. *)
Lemma clean_response_twice_unfenced (s : string) :
  startswith s fence = false -> clean_response (clean_response s) = clean_response s.
Proof. intros Hs. now rewrite !(clean_response_unfenced s Hs). Qed.

Lemma clean_response_twice_wrapped (first body : string) :
  startswith first fence = true -> contains first NL = false ->
  strip body = body -> startswith body fence = false ->
  clean_response (clean_response (first +:+ NL +:+ body +:+ NL +:+ fence))
  = clean_response (first +:+ NL +:+ body +:+ NL +:+ fence).
Proof.
  intros Hf Hn Hb Hs. rewrite (clean_response_wrapped _ _ Hf Hn Hb).
  now apply clean_response_unfenced.
Qed.

(** ** The prompt builder *)

(** C9.  A reference text of more than 3000 characters is embedded in
    the user prompt as its first 3000 characters exactly: the embedded
    text has length 3000 and is a prefix of the reference.  The builder
    is a total function, it has no error outcome. *)
Theorem reference_truncated_to_budget
    (category content_topic theme difficulty reference : string) :
  (3000 < String.length reference)%nat ->
  build_jeopardy_prompt category content_topic theme difficulty (Some reference)
  = prompt_head category content_topic theme difficulty
    +:+ (NL +:+ "Source material to use for questions:" +:+ NL
         +:+ substring 0 3000 reference +:+ NL
         +:+ NL
         +:+ "All clues must be answerable from the source material above." +:+ NL)
    +:+ prompt_tail
  /\ String.length (substring 0 3000 reference) = 3000%nat
  /\ String.prefix (substring 0 3000 reference) reference = true.
Proof.
  intros Hlen. split; [|split].
  - unfold build_jeopardy_prompt, ref_material_text.
    assert (String.eqb reference "" = false) as ->.
    { apply String.eqb_neq. intros ->. cbn in Hlen. lia. }
    cbn [negb]. unfold slice_to, REFERENCE_BUDGET.
    change (3000 <? 0) with false. cbv iota.
    rewrite Z.min_l by lia. reflexivity.
  - apply substring_0_length. lia.
  - apply substring_0_prefix.
Qed.

Lemma reference_truncated_to_budget_witness :
  String.length (substring 0 3000 (replicate_char 3001 "x")) = 3000%nat.
Proof.
  apply (reference_truncated_to_budget "" "" "" "" (replicate_char 3001 "x")).
  vm_compute. lia.
Defined.

(** ** The response evaluator *)

Lemma bind_Ok {A B : Type} (m : result A) (k : A -> result B) (b : B) :
  bind m k = Ok b -> exists a, m = Ok a /\ k a = Ok b.
Proof. destruct m as [a|e]; [eauto | discriminate]. Qed.

Ltac bind_inv H :=
  let a := fresh "a" in let E := fresh "E" in
  apply bind_Ok in H as (a & E & H).

Section EvaluatorFacts.

Context {F : Type} `{PyFloat F}.

Lemma evaluate_data_Ok (result0 : EvaluationResult F) (data : json F)
    (expected_values : list Z) (r : EvaluationResult F) :
  evaluate_data result0 data expected_values = Ok r ->
  exists (kvs : list (string * json F)) (n : Z),
    let clues := default (JArr []) (dict_get kvs "clues") in
    data = JObj kvs /\ py_len clues = Ok n
    /\ valid_json r = true /\ clue_count r = n
    /\ token_usage r = token_usage result0 /\ cost_usd r = cost_usd result0
    /\ evaluated result0 expected_values clues n r.
Proof.
  unfold evaluate_data. intros Hr.
  bind_inv Hr. destruct data as [| | | | | |kvs]; try discriminate.
  cbn [py_get] in E. injection E as <-.
  bind_inv Hr. rename a into n. exists kvs, n. cbn zeta.
  destruct (py_bool (default (JArr []) (dict_get kvs "clues"))) eqn:Hb; cbn [negb] in Hr.
  - bind_inv Hr. bind_inv Hr. bind_inv Hr. bind_inv Hr. bind_inv Hr.
    injection Hr as <-. cbn.
    repeat (split; [reflexivity || assumption |]).
    eapply evaluated_scored; eauto.
  - injection Hr as <-. cbn.
    repeat (split; [reflexivity || assumption |]).
    now apply evaluated_no_clues.
Qed.


(** *** Which parsed values the evaluator can read *)

Lemma readable_clue_inv (c : json F) :
  readable_clue c = true ->
  exists kvs, c = JObj kvs
    /\ (py_bool (default JNull (dict_get kvs "response")) = true ->
        exists s, dict_get kvs "response" = Some (JStr s)).
Proof.
  destruct c as [| | | | | |kvs]; try discriminate. cbn [readable_clue].
  intros Hc. exists kvs. split; [reflexivity |].
  destruct (dict_get kvs "response") as [r|]; cbn [default from_option id]; [|discriminate].
  intros Hb. rewrite Hb in Hc. destruct r; try discriminate. eauto.
Qed.




Lemma find_duplicates_readable (l : list (json F)) :
  forallb readable_clue l = true ->
  forall (rs : list string) (i : nat) (seen : gmap string Z) (dups : list string),
    (i + length rs <= length l)%nat ->
    exists d, find_duplicates (JArr l) i rs seen dups = Ok d.
Proof.
  intros Hl. induction rs as [|r rs IH]; intros i seen dups Hi;
    cbn [find_duplicates]; [eauto |].
  cbn [length] in Hi.
  destruct (bool_decide _).
  - cbn [py_getitem]. destruct (l !! i) as [c|] eqn:Hc.
    + assert (readable_clue c = true) as Hrc.
      { rewrite forallb_forall in Hl. apply Hl.
        apply list_elem_of_In, list_elem_of_lookup. eauto. }
      apply readable_clue_inv in Hrc as (kvs & -> & _). cbn [bind py_get].
      apply IH. lia.
    + apply lookup_ge_None in Hc. lia.
  - cbn [bind]. apply IH. lia.
Qed.





(** *** Well-formed clue lists *)

Lemma present_values_of_clues (rows : list Clue) :
  present_values_of (map (clue_json (F:=F)) rows) = Ok (map (fun k => JInt (value k)) rows).
Proof.
  induction rows as [|k rows IH]; [reflexivity |].
  cbn [map present_values_of]. change (clue_json k) with (clue_obj (F:=F) (value k) (clue k) (response k)).
  unfold clue_obj.
  cbn [py_in_str py_get bind]. rewrite IH. reflexivity.
Qed.

Lemma responses_of_clues (rows : list Clue) :
  Forall (fun k => clue k <> "" /\ response k <> "") rows ->
  responses_of (map (clue_json (F:=F)) rows) = Ok (map (fun k => normalize (response k)) rows).
Proof.
  induction 1 as [|k rows [_ Hr] _ IH]; [reflexivity |].
  cbn [map responses_of]. change (clue_json k) with (clue_obj (F:=F) (value k) (clue k) (response k)).
  unfold clue_obj.
  cbn [py_get bind]. change (default JNull _) with (JStr (F:=F) (response k)).
  cbn [py_bool]. apply String.eqb_neq in Hr. rewrite Hr. cbn [negb].
  change (default (JStr "") _) with (JStr (F:=F) (response k)).
  cbn [py_strip bind]. rewrite IH. reflexivity.
Qed.

(** Only the clues with a non-empty response contribute to [responses]. *)
Lemma responses_of_skips_silent_clues (rows : list Clue) :
  responses_of (map (clue_json (F:=F)) rows)
  = Ok (map (fun k => normalize (response k))
            (List.filter (fun k => negb (String.eqb (response k) "")) rows)).
Proof.
  induction rows as [|k rows IH]; [reflexivity |].
  cbn [map responses_of List.filter].
  change (clue_json k) with (clue_obj (F:=F) (value k) (clue k) (response k)).
  unfold clue_obj. cbn [py_get bind].
  change (default JNull _) with (JStr (F:=F) (response k)).
  change (default (JStr "") _) with (JStr (F:=F) (response k)).
  cbn [py_bool py_strip bind]. rewrite IH.
  now destruct (String.eqb (response k) "").
Qed.

Lemma field_penalties_clues (rows : list Clue) (score : Z) :
  Forall (fun k => clue k <> "" /\ response k <> "") rows ->
  field_penalties (map (clue_json (F:=F)) rows) score = Ok score.
Proof.
  induction 1 as [|k rows [Hc Hr] _ IH]; [reflexivity |].
  cbn [map field_penalties]. change (clue_json k) with (clue_obj (F:=F) (value k) (clue k) (response k)).
  unfold clue_obj.
  cbn [py_get bind].
  change (default JNull (dict_get _ "clue")) with (JStr (F:=F) (clue k)).
  change (default JNull (dict_get _ "response")) with (JStr (F:=F) (response k)).
  cbn [py_bool bind]. apply String.eqb_neq in Hc, Hr. rewrite Hc, Hr. exact IH.
Qed.

(** Responses that are pairwise distinct and not yet in [seen] add no
    entry. *)
Lemma find_duplicates_NoDup (clues : json F) (rs : list string) :
  NoDup rs ->
  forall (i : nat) (seen : gmap string Z) (dups : list string),
    (forall r, r ∈ rs -> seen !! r = None) ->
    find_duplicates clues i rs seen dups = Ok dups.
Proof.
  induction 1 as [|r rs Hr _ IH]; intros i seen dups Hseen; [reflexivity |].
  cbn [find_duplicates]. rewrite (Hseen r) by apply list_elem_of_here.
  rewrite bool_decide_eq_false_2 by (intros [? ?]; discriminate).
  cbn [bind]. apply IH. intros r' Hr'.
  rewrite lookup_insert_ne by (intros ->; contradiction).
  apply Hseen. now apply list_elem_of_further.
Qed.

Lemma py_in_list_ints (v : Z) (vs : list Z) :
  py_in_list v (map (fun n => JInt (F:=F) n) vs) = bool_decide (v ∈ vs).
Proof.
  induction vs as [|n vs IH]; [reflexivity |].
  unfold py_in_list in *. cbn [map existsb py_eq_int]. rewrite IH.
  destruct (Z.eqb_spec v n) as [->|Hne].
  - symmetry. apply bool_decide_eq_true_2, list_elem_of_here.
  - cbn [orb]. apply bool_decide_ext. split; [apply list_elem_of_further |].
    intros [?|?]%elem_of_cons; [contradiction | assumption].
Qed.

Lemma missing_of_permutation (expected vs vs' : list Z) :
  vs ≡ₚ vs' ->
  missing_of expected (map (fun n => JInt (F:=F) n) vs)
  = missing_of expected (map (fun n => JInt (F:=F) n) vs').
Proof.
  intros Hp. unfold missing_of. apply List.filter_ext. intros v.
  rewrite !py_in_list_ints. f_equal. apply bool_decide_ext. now rewrite Hp.
Qed.


(** *** The claims about the evaluator *)

(** C2.  Whatever [evaluate_response] returns, its [quality_score] lies
    in [0, 10]; it is 0 on the two paths that set [parse_error]. *)
Theorem quality_score_clamped (MODEL_PRICING : gmap string (Pricing F))
    (loaded : result (json F)) (expected_values : list Z) (elapsed_time : F)
    (model : string) (p c : Z) (r : EvaluationResult F) :
  evaluate_response MODEL_PRICING loaded expected_values elapsed_time model p c = Ok r ->
  0 <= quality_score r <= 10 /\ (parse_error r <> None -> quality_score r = 0).
Proof.
  unfold evaluate_response. destruct loaded as [data|e].
  - intros Hr.
    apply evaluate_data_Ok in Hr as (kvs & n & _ & _ & _ & _ & _ & _ & Hev).
    destruct Hev as [_ _ Hq|? ? ? ? ? _ _ _ _ _ _ Hpe _ _ _ _ Hq]; rewrite Hq.
    + cbn. split; [lia | reflexivity].
    + split; [lia |]. rewrite Hpe. cbn. congruence.
  - destruct e; try discriminate. intros [= <-]. cbn. split; [lia | reflexivity].
Qed.


(** C3.  For the five clues with the responses Rome, Paris, Rome,
    Berlin, Madrid on the canonical ladder: all values are present, the
    answers are not unique, the one duplicate entry is keyed by value
    600 and pairs it with the normal form of "Rome", and the score is
    10 - 3 = 7. *)
Theorem repeated_rome_scores_seven (MODEL_PRICING : gmap string (Pricing F))
    (elapsed_time : F) (model : string) (p c : Z) :
  exists r,
    evaluate_response MODEL_PRICING
      (Ok (payload [clue_obj 200 "a" "Rome"; clue_obj 400 "b" "Paris";
                    clue_obj 600 "c" "Rome"; clue_obj 800 "d" "Berlin";
                    clue_obj 1000 "e" "Madrid"]))
      CANONICAL_LADDER elapsed_time model p c = Ok r
    /\ all_values_present r = true
    /\ unique_answers r = false
    /\ duplicate_answers r = ["Value 600: " +:+ normalize "Rome"]
    /\ normalize "Rome" = "rome"
    /\ quality_score r = 10 - 3
    /\ quality_score r = 7.
Proof.
  eexists. split; [vm_compute; reflexivity |]. repeat split.
Qed.

(** C4.  Four clues with non-empty texts and pairwise different
    responses whose values are 200, 400, 600, 800 in any order: the
    only missing value is 1000 and the score is 10 - 2 - 1 = 7. *)
Theorem four_clues_miss_the_top_value (MODEL_PRICING : gmap string (Pricing F))
    (rows : list Clue) (elapsed_time : F) (model : string) (p c : Z) :
  map value rows ≡ₚ [200; 400; 600; 800] ->
  Forall (fun k => clue k <> "" /\ response k <> "") rows ->
  NoDup (map (fun k => normalize (response k)) rows) ->
  exists r,
    evaluate_response MODEL_PRICING (Ok (payload (map clue_json rows)))
      CANONICAL_LADDER elapsed_time model p c = Ok r
    /\ missing_values r = [1000]
    /\ clue_count r = 4
    /\ quality_score r = 10 - 2 - 1
    /\ quality_score r = 7.
Proof.
  intros Hperm Hwf Hnodup.
  assert (length rows = 4%nat) as Hlen.
  { apply Permutation_length in Hperm. now rewrite length_map in Hperm. }
  assert (missing_of CANONICAL_LADDER (map (fun k => JInt (F:=F) (value k)) rows) = [1000])
    as Hmiss.
  { rewrite <- (map_map value (fun n => JInt n)).
    now rewrite (missing_of_permutation _ _ _ Hperm). }
  unfold evaluate_response, evaluate_data, payload.
  cbn [py_get dict_get String.eqb Ascii.eqb Bool.eqb default from_option id bind py_len].
  rewrite length_map, Hlen.
  destruct rows as [|k rows']; [discriminate Hlen |].
  cbn [map py_bool negb py_iter bind].
  change (clue_json k :: map clue_json rows') with (map (clue_json (F:=F)) (k :: rows')).
  rewrite present_values_of_clues, (responses_of_clues _ Hwf). cbn [bind].
  rewrite (find_duplicates_NoDup _ _ Hnodup) by (intros; apply lookup_empty).
  cbn [bind length]. rewrite (field_penalties_clues _ _ Hwf). cbn [bind].
  rewrite Hmiss. eexists. split; [reflexivity |]. cbn. repeat split.
Qed.

(** C8.  A model without a pricing entry costs exactly [0.0], in
    particular with the empty table; a model with an entry costs
    [(prompt_tokens / 1e6) * prompt + (completion_tokens / 1e6) * completion];
    and [cost_usd] of an evaluation is that cost. *)
Theorem cost_of_priced_and_unpriced_models (MODEL_PRICING : gmap string (Pricing F))
    (model : string) (p c : Z) :
  (MODEL_PRICING !! model = None ->
   calculate_cost MODEL_PRICING model p c = float_zero)
  /\ (forall pricing, MODEL_PRICING !! model = Some pricing ->
      calculate_cost MODEL_PRICING model p c
      = float_add (float_mul (int_truediv p 1000000) (prompt pricing))
                  (float_mul (int_truediv c 1000000) (completion pricing)))
  /\ calculate_cost (∅ : gmap string (Pricing F)) model p c = float_zero
  /\ (forall loaded expected_values elapsed_time r,
      evaluate_response MODEL_PRICING loaded expected_values elapsed_time model p c
      = Ok r ->
      cost_usd r = calculate_cost MODEL_PRICING model p c).
Proof.
  unfold calculate_cost. repeat split.
  - now intros ->.
  - now intros pricing ->.
  - intros loaded expected_values elapsed_time r. unfold evaluate_response.
    destruct loaded as [data|e].
    + intros Hr. apply evaluate_data_Ok in Hr as (_ & _ & _ & _ & _ & _ & _ & -> & _).
      reflexivity.
    + destruct e; try discriminate. now intros [= <-].
Qed.

(** C10.  With a clue without response between two clues that answer
    Rome, the duplicate entry is keyed by the value 200 of the clue
    without response; without that clue it is keyed by 600. *)
Theorem duplicate_label_read_from_silent_clue (MODEL_PRICING : gmap string (Pricing F))
    (elapsed_time : F) (model : string) (p c : Z) :
  exists r r',
    evaluate_response MODEL_PRICING
      (Ok (payload [clue_obj 400 "b" "Rome"; clue_obj 200 "a" "";
                    clue_obj 600 "c" "Rome"]))
      CANONICAL_LADDER elapsed_time model p c = Ok r
    /\ evaluate_response MODEL_PRICING
         (Ok (payload [clue_obj 400 "b" "Rome"; clue_obj 600 "c" "Rome"]))
         CANONICAL_LADDER elapsed_time model p c = Ok r'
    /\ duplicate_answers r = ["Value 200: rome"]
    /\ duplicate_answers r' = ["Value 600: rome"]
    /\ unique_answers r = false /\ unique_answers r' = false.
Proof.
  do 2 eexists. split; [vm_compute; reflexivity |].
  split; [vm_compute; reflexivity |]. repeat split.
Qed.

End EvaluatorFacts.


(** *** Runs on concrete inputs, with exact rationals for the floats *)

Lemma quality_score_clamped_witness :
  exists r,
    evaluate_response (F:=Q) ∅
      (Ok (payload [clue_obj 200 "" ""; clue_obj 200 "" ""; clue_obj 200 "" ""]))
      CANONICAL_LADDER 0%Q "" 0 0 = Ok r
    /\ 0 <= quality_score r <= 10.
Proof.
  eexists. split; [vm_compute; reflexivity |].
  apply (quality_score_clamped (F:=Q) ∅
           (Ok (payload [clue_obj 200 "" ""; clue_obj 200 "" ""; clue_obj 200 "" ""]))
           CANONICAL_LADDER 0%Q "" 0 0).
  vm_compute. reflexivity.
Defined.


Lemma four_clues_miss_the_top_value_witness :
  exists r,
    evaluate_response (F:=Q) ∅
      (Ok (payload (map clue_json
                      [ {| value := 800; clue := "d"; response := "Berlin" |};
                        {| value := 200; clue := "a"; response := "Rome" |};
                        {| value := 600; clue := "c"; response := "Oslo" |};
                        {| value := 400; clue := "b"; response := "Paris" |} ])))
      CANONICAL_LADDER 0%Q "" 0 0 = Ok r
    /\ missing_values r = [1000]
    /\ clue_count r = 4
    /\ quality_score r = 10 - 2 - 1
    /\ quality_score r = 7.
Proof.
  apply four_clues_miss_the_top_value.
  - apply (bool_decide_unpack _). vm_compute. exact I.
  - repeat constructor; discriminate.
  - apply (bool_decide_unpack _). vm_compute. exact I.
Defined.

Lemma cost_of_priced_and_unpriced_models_witness :
  let table : gmap string (Pricing Q) :=
    {[ "m" := {| prompt := 3%Q; completion := 15%Q |} ]} in
  calculate_cost table "m" 1000000 2000000
  = float_add (float_mul (int_truediv 1000000 1000000) 3%Q)
              (float_mul (int_truediv 2000000 1000000) 15%Q)
  /\ calculate_cost table "other" 1000000 2000000 = 0%Q.
Proof.
  intros table.
  destruct (cost_of_priced_and_unpriced_models table "m" 1000000 2000000)
    as (_ & Hpriced & _ & _).
  destruct (cost_of_priced_and_unpriced_models table "other" 1000000 2000000)
    as (Hunpriced & _ & _ & _).
  split; [apply (Hpriced {| prompt := 3%Q; completion := 15%Q |}) | apply Hunpriced];
    vm_compute; reflexivity.
Defined.

(** *** The sibling cleaner on the same wrapped text *)

Example extract_json_text_json_fence :
  extract_json_text ("```json" +:+ NL +:+ "{...}" +:+ NL +:+ "```") = "{...}".
Proof. reflexivity. Qed.

Example extract_json_text_keeps_other_tags :
  extract_json_text ("```python" +:+ NL +:+ "{...}" +:+ NL +:+ "```")
  = "python" +:+ NL +:+ "{...}"
  /\ clean_response ("```python" +:+ NL +:+ "{...}" +:+ NL +:+ "```") = "{...}".
Proof. split; reflexivity. Qed.

(** * Further properties of the scripts *)

(** ** The evaluator: how the fields of a result hang together *)

Lemma gset_union_shift (r : string) (X Y : gset string) :
  X ∪ ({[r]} ∪ Y) = {[r]} ∪ X ∪ Y.
Proof. now rewrite (assoc_L (∪)), (comm_L (∪) X). Qed.

Lemma gset_union_absorb (r : string) (X : gset string) : r ∈ X -> {[r]} ∪ X = X.
Proof. intros Hr. now apply subseteq_union_1_L, singleton_subseteq_l. Qed.

Lemma gset_size_add (r : string) (X : gset string) :
  r ∉ X -> size ({[r]} ∪ X) = S (size X).
Proof.
  intros Hr. rewrite size_union by now apply disjoint_singleton_l.
  now rewrite size_singleton.
Qed.

Section EvaluatorInvariants.

Context {F : Type} `{PyFloat F}.

(** Every duplicate entry stands for one response that was seen before:
    entries and distinct responses add up to the responses. *)
Lemma find_duplicates_count (clues : json F) (rs : list string) :
  forall (i : nat) (seen : gmap string Z) (dups d : list string),
    find_duplicates clues i rs seen dups = Ok d ->
    (length d + size (dom seen ∪ list_to_set rs : gset string)
     = length dups + length rs + size (dom seen))%nat.
Proof.
  induction rs as [|r rs IH]; intros i seen dups d Hd.
  - injection Hd as <-. cbn [list_to_set length]. rewrite union_empty_r_L. lia.
  - cbn [find_duplicates] in Hd. bind_inv Hd. apply IH in Hd.
    rewrite dom_insert_L in Hd. cbn [list_to_set length].
    destruct (decide (r ∈ dom seen)) as [Hin|Hout].
    + rewrite bool_decide_eq_true_2 in E by now apply elem_of_dom.
      bind_inv E. bind_inv E. injection E as <-. rewrite length_app in Hd. cbn in Hd.
      rewrite gset_union_shift. rewrite (gset_union_absorb r (dom seen) Hin) in Hd |- *. lia.
    + rewrite bool_decide_eq_false_2 in E by now rewrite <- elem_of_dom.
      injection E as <-.
      rewrite gset_union_shift. rewrite (gset_size_add r (dom seen) Hout) in Hd. lia.
Qed.

Lemma find_duplicates_from_scratch (clues : json F) (rs d : list string) :
  find_duplicates clues 0 rs ∅ [] = Ok d ->
  (length d + size (list_to_set rs : gset string) = length rs)%nat.
Proof.
  intros Hd. apply find_duplicates_count in Hd.
  rewrite dom_empty_L, union_empty_l_L, size_empty in Hd. cbn [length] in Hd. lia.
Qed.

Lemma field_penalties_le (items : list (json F)) :
  forall score score', field_penalties items score = Ok score' -> score' <= score.
Proof.
  induction items as [|c items IH]; intros score score' Hs.
  - injection Hs as <-. lia.
  - cbn [field_penalties] in Hs. bind_inv Hs. bind_inv Hs. apply IH in Hs.
    destruct (py_bool a), (py_bool a0); lia.
Qed.

Lemma missing_of_sublist (expected : list Z) (present : list (json F)) :
  sublist (missing_of expected present) expected.
Proof.
  unfold missing_of. induction expected as [|v vs IH]; cbn [List.filter]; [constructor |].
  destruct (negb _); now constructor.
Qed.


Lemma size_list_to_set_le (l : list string) :
  (size (list_to_set l : gset string) <= length l)%nat.
Proof.
  induction l as [|x l IH]; cbn [list_to_set length].
  - now rewrite size_empty.
  - destruct (decide (x ∈ (list_to_set l : gset string))) as [Hin|Hout].
    + rewrite (gset_union_absorb _ _ Hin). lia.
    + rewrite (gset_size_add _ _ Hout). lia.
Qed.

Lemma size_list_to_set_NoDup (l : list string) :
  size (list_to_set l : gset string) = length l <-> NoDup l.
Proof.
  split; [|apply size_list_to_set].
  induction l as [|x l IH]; cbn [list_to_set length]; [constructor |].
  pose proof (size_list_to_set_le l) as Hle.
  destruct (decide (x ∈ (list_to_set l : gset string))) as [Hin|Hout].
  - rewrite (gset_union_absorb _ _ Hin). lia.
  - rewrite (gset_size_add _ _ Hout). intros Hs. constructor.
    + now rewrite elem_of_list_to_set in Hout.
    + apply IH. lia.
Qed.

(** The scored path, read off a returned record that carries no parse
    error. *)
Lemma evaluate_response_scored (MODEL_PRICING : gmap string (Pricing F))
    (loaded : result (json F)) (expected_values : list Z) (elapsed_time : F)
    (model : string) (p c : Z) (r : EvaluationResult F) :
  evaluate_response MODEL_PRICING loaded expected_values elapsed_time model p c = Ok r ->
  parse_error r = None ->
  exists (clues : json F) (items present : list (json F))
         (responses : list string) (score : Z),
    py_iter clues = Ok items
    /\ present_values_of items = Ok present
    /\ responses_of items = Ok responses
    /\ find_duplicates clues 0 responses ∅ [] = Ok (duplicate_answers r)
    /\ field_penalties items
         (10 - Z.of_nat (length (missing_of expected_values present)) * 2
             - Z.of_nat (length (duplicate_answers r)) * 3) = Ok score
    /\ missing_values r = missing_of expected_values present
    /\ all_values_present r = bool_decide (length (missing_values r) = 0%nat)
    /\ unique_answers r
       = bool_decide (length responses = size (list_to_set responses : gset string))
    /\ quality_score r
       = Z.max 0 (Z.min 10 (if clue_count r <? 5
                            then score - (5 - clue_count r) * 1 else score)).
Proof.
  unfold evaluate_response. destruct loaded as [data|e].
  - intros Hr Hpe.
    apply evaluate_data_Ok in Hr as (kvs & n & _ & _ & _ & <- & _ & _ & Hev).
    destruct Hev as [_ Hpe' _|items present rs dups score _ Hit Hpv Hrs Hd Hs _ Hm Ha Hu Hdup Hq];
      [congruence |].
    exists (default (JArr []) (dict_get kvs "clues")), items, present, rs, score.
    subst dups. rewrite Hm. repeat split; assumption.
  - destruct e; try discriminate. intros [= <-]. discriminate.
Qed.

(** The two early returns: a record that carries a parse error has
    every derived field at its default. *)
Lemma evaluate_response_unscored (MODEL_PRICING : gmap string (Pricing F))
    (loaded : result (json F)) (expected_values : list Z) (elapsed_time : F)
    (model : string) (p c : Z) (r : EvaluationResult F) (msg : string) :
  evaluate_response MODEL_PRICING loaded expected_values elapsed_time model p c = Ok r ->
  parse_error r = Some msg ->
  all_values_present r = false /\ missing_values r = []
  /\ unique_answers r = false /\ duplicate_answers r = []
  /\ quality_score r = 0.
Proof.
  unfold evaluate_response. destruct loaded as [data|e].
  - unfold evaluate_data. intros Hr Hpe.
    bind_inv Hr. bind_inv Hr.
    destruct (py_bool a); cbn [negb] in Hr.
    + bind_inv Hr. bind_inv Hr. bind_inv Hr. bind_inv Hr. bind_inv Hr.
      injection Hr as <-. discriminate Hpe.
    + injection Hr as <-. cbn. tauto.
  - destruct e; try discriminate. intros [= <-] _. cbn. tauto.
Qed.

(** X1.  The missing values of a returned record are expected values,
    in the order of the ladder; on the scored path [all_values_present]
    says exactly that none is missing, on the early returns it is false
    although nothing is listed as missing. *)
Theorem missing_values_within_expected (MODEL_PRICING : gmap string (Pricing F))
    (loaded : result (json F)) (expected_values : list Z) (elapsed_time : F)
    (model : string) (p c : Z) (r : EvaluationResult F) :
  evaluate_response MODEL_PRICING loaded expected_values elapsed_time model p c = Ok r ->
  sublist (missing_values r) expected_values
  /\ (all_values_present r = true -> missing_values r = [])
  /\ (parse_error r = None -> missing_values r = [] -> all_values_present r = true)
  /\ (parse_error r <> None -> missing_values r = [] /\ all_values_present r = false).
Proof.
  intros Hr. destruct (parse_error r) as [msg|] eqn:Hpe.
  - destruct (evaluate_response_unscored _ _ _ _ _ _ _ _ _ Hr Hpe) as (-> & -> & _).
    split; [apply sublist_nil_l |]. split; [discriminate |].
    split; [discriminate |]. intros _. split; reflexivity.
  - destruct (evaluate_response_scored _ _ _ _ _ _ _ _ Hr Hpe)
      as (clues & items & present & rs & score & _ & _ & _ & _ & _ & Hm & Ha & _ & _).
    rewrite Ha, Hm. split; [apply missing_of_sublist |]. split; [|split].
    + intros Hl%bool_decide_eq_true. now destruct (missing_of _ _).
    + intros _ ->. reflexivity.
    + congruence.
Qed.

(** X2.  On the scored path the two uniqueness fields agree: the answers
    are unique exactly when no duplicate entry is listed. *)
Theorem unique_answers_iff_no_duplicates (MODEL_PRICING : gmap string (Pricing F))
    (loaded : result (json F)) (expected_values : list Z) (elapsed_time : F)
    (model : string) (p c : Z) (r : EvaluationResult F) :
  evaluate_response MODEL_PRICING loaded expected_values elapsed_time model p c = Ok r ->
  parse_error r = None ->
  (unique_answers r = true <-> duplicate_answers r = []).
Proof.
  intros Hr Hpe.
  destruct (evaluate_response_scored _ _ _ _ _ _ _ _ Hr Hpe)
    as (clues & items & present & rs & score & _ & _ & _ & Hd & _ & _ & _ & Hu & _).
  apply find_duplicates_from_scratch in Hd. rewrite Hu. split.
  - intros Heq%bool_decide_eq_true. destruct (duplicate_answers r); [reflexivity |].
    cbn [length] in Hd. lia.
  - intros Hnil. rewrite Hnil in Hd. cbn [length] in Hd.
    apply bool_decide_eq_true_2. lia.
Qed.

(** X3.  A score of 10 certifies the payload: nothing is missing, no
    answer is repeated, there are at least five clues and no parse
    error. *)
Theorem full_score_certifies (MODEL_PRICING : gmap string (Pricing F))
    (loaded : result (json F)) (expected_values : list Z) (elapsed_time : F)
    (model : string) (p c : Z) (r : EvaluationResult F) :
  evaluate_response MODEL_PRICING loaded expected_values elapsed_time model p c = Ok r ->
  quality_score r = 10 ->
  parse_error r = None
  /\ missing_values r = [] /\ all_values_present r = true
  /\ duplicate_answers r = [] /\ unique_answers r = true
  /\ 5 <= clue_count r.
Proof.
  intros Hr Hq. destruct (parse_error r) as [msg|] eqn:Hpe.
  - destruct (evaluate_response_unscored _ _ _ _ _ _ _ _ _ Hr Hpe) as (_ & _ & _ & _ & Hq0).
    lia.
  - destruct (evaluate_response_scored _ _ _ _ _ _ _ _ Hr Hpe)
      as (clues & items & present & rs & score & _ & _ & _ & Hd & Hs & Hm & Ha & Hu & Hqs).
    apply field_penalties_le in Hs. apply find_duplicates_from_scratch in Hd.
    rewrite <- Hm in Hs. rewrite Hq in Hqs.
    assert (length (missing_values r) = 0%nat /\ length (duplicate_answers r) = 0%nat
            /\ 5 <= clue_count r) as (Hm0 & Hd0 & Hn).
    { destruct (Z.ltb_spec (clue_count r) 5); lia. }
    rewrite Ha, Hu, Hm0. rewrite Hd0 in Hd.
    repeat split; try reflexivity; try assumption.
    + now destruct (missing_values r).
    + now destruct (duplicate_answers r).
    + apply bool_decide_eq_true_2. lia.
Qed.

(** *** Payloads that follow the data model *)

Lemma readable_clue_json (rows : list Clue) :
  forallb readable_clue (map (clue_json (F:=F)) rows) = true.
Proof.
  induction rows as [|k rows IH]; [reflexivity |]. cbn [map forallb]. rewrite IH.
  change (clue_json k) with (clue_obj (F:=F) (value k) (clue k) (response k)).
  unfold clue_obj. cbn [readable_clue].
  change (dict_get _ "response") with (Some (JStr (F:=F) (response k))).
  cbn [py_bool]. now destruct (negb (String.eqb (response k) "")).
Qed.

Lemma field_penalties_rows (rows : list Clue) (score : Z) :
  field_penalties (map (clue_json (F:=F)) rows) score
  = Ok (score - Z.of_nat (length (untitled rows)) - Z.of_nat (length (silent rows))).
Proof.
  revert score. induction rows as [|k rows IH]; intros score.
  - cbn. f_equal. lia.
  - cbn [map field_penalties].
    change (clue_json k) with (clue_obj (F:=F) (value k) (clue k) (response k)).
    unfold clue_obj. cbn [py_get bind].
    change (default JNull (dict_get _ "clue")) with (JStr (F:=F) (clue k)).
    change (default JNull (dict_get _ "response")) with (JStr (F:=F) (response k)).
    cbn [py_bool bind]. rewrite IH. unfold untitled, silent. cbn [List.filter].
    destruct (String.eqb (clue k) ""), (String.eqb (response k) "");
      cbn [negb length]; f_equal; lia.
Qed.

Lemma missing_of_values (expected : list Z) (rows : list Clue) :
  missing_of expected (map (fun k => JInt (F:=F) (value k)) rows)
  = List.filter (fun v => negb (bool_decide (v ∈ map value rows))) expected.
Proof.
  unfold missing_of. apply List.filter_ext. intros v.
  now rewrite <- (map_map value (fun n => JInt n)), py_in_list_ints.
Qed.

(** The record returned for a non-empty list of data-model clues. *)
Lemma evaluate_clue_rows (MODEL_PRICING : gmap string (Pricing F))
    (rows : list Clue) (expected_values : list Z) (elapsed_time : F)
    (model : string) (p c : Z) :
  rows <> [] ->
  exists r,
    evaluate_response MODEL_PRICING (Ok (payload (map clue_json rows)))
      expected_values elapsed_time model p c = Ok r
    /\ parse_error r = None
    /\ clue_count r = Z.of_nat (length rows)
    /\ missing_values r
       = List.filter (fun v => negb (bool_decide (v ∈ map value rows))) expected_values
    /\ find_duplicates (JArr (map clue_json rows)) 0 (normal_responses rows) ∅ []
       = Ok (duplicate_answers r)
    /\ unique_answers r
       = bool_decide (length (normal_responses rows)
                      = size (list_to_set (normal_responses rows) : gset string))
    /\ all_values_present r = bool_decide (length (missing_values r) = 0%nat)
    /\ quality_score r
       = Z.max 0 (Z.min 10
           (10 - Z.of_nat (length (missing_values r)) * 2
               - Z.of_nat (length (duplicate_answers r)) * 3
               - Z.of_nat (length (untitled rows)) - Z.of_nat (length (silent rows))
               - Z.max 0 (5 - Z.of_nat (length rows)))).
Proof.
  intros Hne.
  assert (py_bool (JArr (map (clue_json (F:=F)) rows)) = true) as Hb
    by (destruct rows; [congruence | reflexivity]).
  unfold evaluate_response, evaluate_data, payload.
  cbn [py_get dict_get String.eqb Ascii.eqb Bool.eqb default from_option id bind py_len].
  rewrite length_map, Hb. cbn [negb py_iter bind].
  rewrite present_values_of_clues, responses_of_skips_silent_clues. cbn [bind].
  fold (speaking rows). fold (normal_responses rows).
  destruct (find_duplicates_readable _ (readable_clue_json rows) (normal_responses rows)
              0%nat ∅ []) as [d Hd].
  { unfold normal_responses, speaking. rewrite length_map, length_map.
    pose proof (List.filter_length_le (fun k => negb (String.eqb (response k) "")) rows).
    lia. }
  rewrite Hd. cbn [bind]. rewrite field_penalties_rows. cbn [bind].
  rewrite missing_of_values.
  eexists. split; [reflexivity |].
  cbn [parse_error clue_count missing_values duplicate_answers unique_answers
       all_values_present quality_score initial_result].
  repeat (split; [reflexivity || assumption |]).
  f_equal. f_equal. destruct (Z.ltb_spec (Z.of_nat (length rows)) 5); lia.
Qed.

(** X4.  On a non-empty list of data-model clues the evaluator judges
    uniqueness on the trimmed, lower-cased non-empty responses: the
    answers are unique exactly when these normal forms are pairwise
    different, and every repetition of a normal form, the third as well
    as the second, gives one duplicate entry. *)
Theorem uniqueness_on_normal_responses (MODEL_PRICING : gmap string (Pricing F))
    (rows : list Clue) (expected_values : list Z) (elapsed_time : F)
    (model : string) (p c : Z) :
  rows <> [] ->
  exists r,
    evaluate_response MODEL_PRICING (Ok (payload (map clue_json rows)))
      expected_values elapsed_time model p c = Ok r
    /\ (unique_answers r = true <-> NoDup (normal_responses rows))
    /\ (length (duplicate_answers r)
          + size (list_to_set (normal_responses rows) : gset string)
        = length (normal_responses rows))%nat.
Proof.
  intros Hne.
  destruct (evaluate_clue_rows MODEL_PRICING rows expected_values elapsed_time model p c Hne)
    as (r & Hr & _ & _ & _ & Hd & Hu & _).
  exists r. split; [exact Hr |]. split.
  - rewrite Hu, <- size_list_to_set_NoDup. split.
    + now intros ->%bool_decide_eq_true.
    + intros ->. now apply bool_decide_eq_true_2.
  - now apply find_duplicates_from_scratch in Hd.
Qed.

(** X5.  The score of a non-empty list of data-model clues in closed
    form: from 10, two points for every expected value that no clue
    carries, three for every repetition of a response, one for every
    clue without text, one for every clue without response, one for
    every clue short of five; the result is cut to [0, 10]. *)
Theorem quality_score_closed_form (MODEL_PRICING : gmap string (Pricing F))
    (rows : list Clue) (expected_values : list Z) (elapsed_time : F)
    (model : string) (p c : Z) :
  rows <> [] ->
  exists r,
    evaluate_response MODEL_PRICING (Ok (payload (map clue_json rows)))
      expected_values elapsed_time model p c = Ok r
    /\ missing_values r
       = List.filter (fun v => negb (bool_decide (v ∈ map value rows))) expected_values
    /\ quality_score r
       = Z.max 0 (Z.min 10
           (10 - 2 * Z.of_nat (length (missing_values r))
               - 3 * (Z.of_nat (length (normal_responses rows))
                      - Z.of_nat (size (list_to_set (normal_responses rows) : gset string)))
               - Z.of_nat (length (untitled rows)) - Z.of_nat (length (silent rows))
               - Z.max 0 (5 - Z.of_nat (length rows)))).
Proof.
  intros Hne.
  destruct (evaluate_clue_rows MODEL_PRICING rows expected_values elapsed_time model p c Hne)
    as (r & Hr & _ & _ & Hm & Hd & _ & _ & Hq).
  exists r. split; [exact Hr |]. split; [exact Hm |].
  apply find_duplicates_from_scratch in Hd. rewrite Hq. f_equal. f_equal. lia.
Qed.

(** X6.  A non-empty list of data-model clues scores 10 exactly when
    every expected value is carried by a clue, the normal forms of the
    responses are pairwise different, every clue has its text and its
    response, and there are at least five clues. *)
Theorem full_score_iff_complete (MODEL_PRICING : gmap string (Pricing F))
    (rows : list Clue) (expected_values : list Z) (elapsed_time : F)
    (model : string) (p c : Z) :
  rows <> [] ->
  exists r,
    evaluate_response MODEL_PRICING (Ok (payload (map clue_json rows)))
      expected_values elapsed_time model p c = Ok r
    /\ (quality_score r = 10 <->
        (forall v, v ∈ expected_values -> v ∈ map value rows)
        /\ NoDup (normal_responses rows)
        /\ Forall (fun k => clue k <> "" /\ response k <> "") rows
        /\ (5 <= length rows)%nat).
Proof.
  intros Hne.
  destruct (evaluate_clue_rows MODEL_PRICING rows expected_values elapsed_time model p c Hne)
    as (r & Hr & _ & _ & Hm & Hd & _ & _ & Hq).
  exists r. split; [exact Hr |].
  apply find_duplicates_from_scratch in Hd.
  pose proof (size_list_to_set_NoDup (normal_responses rows)) as Hnd.
  assert (length (missing_values r) = 0%nat
          <-> forall v, v ∈ expected_values -> v ∈ map value rows) as Hmiss.
  { rewrite Hm. clear. induction expected_values as [|v vs IH]; cbn [List.filter].
    - split; [intros _ v Hv; inversion Hv | reflexivity].
    - destruct (decide (v ∈ map value rows)) as [Hin|Hout].
      + rewrite (bool_decide_eq_true_2 _ Hin). cbn [negb]. rewrite IH. split.
        * intros Hall w [->|Hw]%elem_of_cons; auto.
        * intros Hall w Hw. apply Hall. now apply list_elem_of_further.
      + rewrite (bool_decide_eq_false_2 _ Hout). cbn [negb length]. split; [lia |].
        intros Hall. exfalso. apply Hout, Hall, list_elem_of_here. }
  assert ((length (untitled rows) = 0%nat /\ length (silent rows) = 0%nat)
          <-> Forall (fun k => clue k <> "" /\ response k <> "") rows) as Htexts.
  { clear. unfold untitled, silent. induction rows as [|k rows IH]; cbn [List.filter].
    - split; [constructor | auto].
    - rewrite Forall_cons, <- IH.
      destruct (String.eqb_spec (clue k) ""), (String.eqb_spec (response k) "");
        cbn [length]; intuition (try lia; try congruence). }
  rewrite Hq, <- Hmiss, <- Hnd, <- Htexts. split.
  - intros Hten. repeat split; lia.
  - intros (Hm0 & Hs & (Hu & Hsi) & Hlen). lia.
Qed.

End EvaluatorInvariants.

Lemma uniqueness_on_normal_responses_witness :
  exists r,
    evaluate_response (F:=Q) ∅ (Ok (payload (map clue_json rome_three_times)))
      CANONICAL_LADDER 0%Q "" 0 0 = Ok r
    /\ length (duplicate_answers r) = 2%nat.
Proof.
  destruct (uniqueness_on_normal_responses (F:=Q) ∅ rome_three_times
              CANONICAL_LADDER 0%Q "" 0 0) as (r & Hr & _ & Hcount); [discriminate |].
  exists r. split; [exact Hr |].
  assert (size (list_to_set (normal_responses rome_three_times) : gset string) = 1%nat) as Hs
    by (vm_compute; reflexivity).
  assert (length (normal_responses rome_three_times) = 3%nat) as Hl
    by (vm_compute; reflexivity).
  rewrite Hs, Hl in Hcount. lia.
Defined.

Lemma quality_score_closed_form_witness :
  exists r,
    evaluate_response (F:=Q) ∅
      (Ok (payload (map clue_json
                      [ {| value := 200; clue := ""; response := "Rome" |};
                        {| value := 400; clue := "b"; response := "" |} ])))
      CANONICAL_LADDER 0%Q "" 0 0 = Ok r
    /\ quality_score r = 0.
Proof.
  destruct (quality_score_closed_form (F:=Q) ∅
              [ {| value := 200; clue := ""; response := "Rome" |};
                {| value := 400; clue := "b"; response := "" |} ]
              CANONICAL_LADDER 0%Q "" 0 0) as (r & Hr & Hm & Hq); [discriminate |].
  exists r. split; [exact Hr |]. rewrite Hq, Hm. vm_compute. reflexivity.
Defined.

Lemma full_score_iff_complete_witness :
  exists r,
    evaluate_response (F:=Q) ∅ (Ok (payload (map clue_json complete_rows)))
      CANONICAL_LADDER 0%Q "" 0 0 = Ok r
    /\ quality_score r = 10.
Proof.
  destruct (full_score_iff_complete (F:=Q) ∅ complete_rows
              CANONICAL_LADDER 0%Q "" 0 0) as (r & Hr & Hten); [discriminate |].
  exists r. split; [exact Hr |]. apply Hten. repeat split.
  - intros v Hv. apply (bool_decide_unpack _). revert v Hv.
    apply Forall_forall. repeat constructor.
  - apply (bool_decide_unpack _). vm_compute. exact I.
  - repeat constructor; discriminate.
  - cbn. lia.
Defined.

Lemma missing_values_within_expected_witness :
  exists r,
    evaluate_response (F:=Q) ∅ (Ok (payload (map clue_json rome_three_times)))
      CANONICAL_LADDER 0%Q "" 0 0 = Ok r
    /\ sublist (missing_values r) CANONICAL_LADDER.
Proof.
  eexists. split; [vm_compute; reflexivity |].
  apply (missing_values_within_expected (F:=Q) ∅
           (Ok (payload (map clue_json rome_three_times))) CANONICAL_LADDER 0%Q "" 0 0).
  vm_compute. reflexivity.
Defined.

Lemma unique_answers_iff_no_duplicates_witness :
  exists r,
    evaluate_response (F:=Q) ∅ (Ok (payload (map clue_json complete_rows)))
      CANONICAL_LADDER 0%Q "" 0 0 = Ok r
    /\ (unique_answers r = true <-> duplicate_answers r = []).
Proof.
  eexists. split; [vm_compute; reflexivity |].
  apply (unique_answers_iff_no_duplicates (F:=Q) ∅
           (Ok (payload (map clue_json complete_rows))) CANONICAL_LADDER 0%Q "" 0 0);
    vm_compute; reflexivity.
Defined.

Lemma full_score_certifies_witness :
  exists r,
    evaluate_response (F:=Q) ∅ (Ok (payload (map clue_json complete_rows)))
      CANONICAL_LADDER 0%Q "" 0 0 = Ok r
    /\ 5 <= clue_count r.
Proof.
  eexists. split; [vm_compute; reflexivity |].
  apply (full_score_certifies (F:=Q) ∅
           (Ok (payload (map clue_json complete_rows))) CANONICAL_LADDER 0%Q "" 0 0);
    vm_compute; reflexivity.
Defined.

(** ** The prompt builder: difficulty and reference *)

Lemma substring_0_all (n : nat) (s : string) :
  (String.length s <= n)%nat -> substring 0 n s = s.
Proof.
  revert n. induction s as [|c s IH]; intros n Hn.
  - now destruct n.
  - destruct n as [|n]; cbn [String.length] in Hn; [lia |].
    cbn [substring]. rewrite IH by lia. reflexivity.
Qed.

Lemma length_substring_0_le (n : nat) (s : string) :
  (String.length (substring 0 n s) <= String.length s)%nat.
Proof.
  revert n. induction s as [|c s IH]; intros n.
  - now destruct n.
  - destruct n as [|n]; cbn [substring String.length]; [lia |]. specialize (IH n). lia.
Qed.

Lemma length_substring_0_min (n : nat) (s : string) :
  String.length (substring 0 n s) = Nat.min n (String.length s).
Proof.
  revert n. induction s as [|c s IH]; intros n.
  - now destruct n.
  - destruct n as [|n]; cbn [substring String.length]; [reflexivity |].
    rewrite IH. reflexivity.
Qed.

Lemma slice_to_budget (s : string) : slice_to s REFERENCE_BUDGET = substring 0 3000 s.
Proof.
  unfold slice_to, REFERENCE_BUDGET. change (3000 <? 0) with false. cbv iota.
  destruct (Z.le_ge_cases 3000 (Z.of_nat (String.length s))) as [Hle|Hge].
  - rewrite Z.min_l by lia. reflexivity.
  - rewrite Z.min_r by lia. rewrite Nat2Z.id.
    rewrite !substring_0_all by lia. reflexivity.
Qed.

Lemma difficulty_text_fallback (difficulty : string) :
  difficulty <> "easy" -> difficulty <> "hard" ->
  difficulty_text difficulty = "Balanced difficulty level.".
Proof.
  intros He Hh. unfold difficulty_text.
  rewrite lookup_insert_ne by congruence.
  destruct (decide (difficulty = "normal")) as [->|Hn].
  - now rewrite lookup_insert_eq.
  - rewrite lookup_insert_ne by congruence. rewrite lookup_insert_ne by congruence.
    now rewrite lookup_empty.
Qed.

(** X7.  A difficulty other than "easy" and "hard", whatever it is,
    gives the prompt of "normal". *)
Theorem unknown_difficulty_prompts_as_normal
    (category content_topic theme difficulty : string)
    (reference_material : option string) :
  difficulty <> "easy" -> difficulty <> "hard" ->
  build_jeopardy_prompt category content_topic theme difficulty reference_material
  = build_jeopardy_prompt category content_topic theme "normal" reference_material.
Proof.
  intros He Hh. unfold build_jeopardy_prompt, prompt_head.
  rewrite (difficulty_text_fallback _ He Hh).
  rewrite (difficulty_text_fallback "normal") by discriminate. reflexivity.
Qed.

Lemma unknown_difficulty_prompts_as_normal_witness :
  build_jeopardy_prompt "Marvel Movies" "Marvel Cinematic Universe" "Pop Culture"
    "impossible" None
  = build_jeopardy_prompt "Marvel Movies" "Marvel Cinematic Universe" "Pop Culture"
      "normal" None.
Proof.
  apply unknown_difficulty_prompts_as_normal; discriminate.
Defined.

(** X8.  Only the first 3000 characters of the reference reach the
    prompt: two references with the same first 3000 characters give the
    same prompt. *)
Theorem prompt_reads_reference_up_to_budget
    (category content_topic theme difficulty reference reference' : string) :
  substring 0 3000 reference = substring 0 3000 reference' ->
  build_jeopardy_prompt category content_topic theme difficulty (Some reference)
  = build_jeopardy_prompt category content_topic theme difficulty (Some reference').
Proof.
  intros Hpre. unfold build_jeopardy_prompt, ref_material_text.
  rewrite !slice_to_budget, Hpre.
  assert (String.eqb reference "" = String.eqb reference' "") as ->; [|reflexivity].
  destruct reference, reference'; try reflexivity; discriminate Hpre.
Qed.

Lemma prompt_reads_reference_up_to_budget_witness :
  build_jeopardy_prompt "c" "t" "th" "hard" (Some (replicate_char 3000 "x" +:+ "tail one"))
  = build_jeopardy_prompt "c" "t" "th" "hard" (Some (replicate_char 3000 "x" +:+ "tail two")).
Proof.
  apply prompt_reads_reference_up_to_budget. vm_compute. reflexivity.
Defined.

(** X9.  A non-empty reference of at most 3000 characters is embedded
    whole, between the two fixed lines; no reference and the empty
    reference add nothing to the prompt. *)
Theorem short_reference_embedded_whole
    (category content_topic theme difficulty reference : string) :
  reference <> "" -> (String.length reference <= 3000)%nat ->
  build_jeopardy_prompt category content_topic theme difficulty (Some reference)
  = prompt_head category content_topic theme difficulty
    +:+ (NL +:+ "Source material to use for questions:" +:+ NL
         +:+ reference +:+ NL
         +:+ NL
         +:+ "All clues must be answerable from the source material above." +:+ NL)
    +:+ prompt_tail
  /\ build_jeopardy_prompt category content_topic theme difficulty None
     = prompt_head category content_topic theme difficulty +:+ prompt_tail
  /\ build_jeopardy_prompt category content_topic theme difficulty (Some "")
     = build_jeopardy_prompt category content_topic theme difficulty None.
Proof.
  intros Hne Hlen. split; [|split; reflexivity].
  unfold build_jeopardy_prompt, ref_material_text.
  apply String.eqb_neq in Hne. rewrite Hne. cbn [negb].
  rewrite slice_to_budget, substring_0_all by exact Hlen. reflexivity.
Qed.

Lemma short_reference_embedded_whole_witness :
  build_jeopardy_prompt "c" "t" "th" "easy" (Some "")
  = build_jeopardy_prompt "c" "t" "th" "easy" None.
Proof.
  apply (short_reference_embedded_whole "c" "t" "th" "easy" "Mars is the Red Planet.").
  - discriminate.
  - vm_compute. lia.
Defined.

(** X10.  Whatever its length, the reference adds at most 3000 + 102
    characters to the prompt. *)
Theorem reference_growth_bounded
    (category content_topic theme difficulty : string)
    (reference_material : option string) :
  (String.length
     (build_jeopardy_prompt category content_topic theme difficulty reference_material)
   <= String.length
        (build_jeopardy_prompt category content_topic theme difficulty None)
      + 3000 + 102)%nat.
Proof.
  unfold build_jeopardy_prompt. rewrite !length_append.
  assert (String.length (ref_material_text reference_material) <= 3000 + 102)%nat;
    [|cbn [ref_material_text String.length]; lia].
  unfold ref_material_text. destruct reference_material as [text|]; [|cbn; lia].
  destruct (negb (String.eqb text "")); [|cbn; lia].
  rewrite slice_to_budget, !length_append, length_substring_0_min.
  change (String.length NL) with 1%nat.
  change (String.length "Source material to use for questions:") with 37%nat.
  change (String.length "All clues must be answerable from the source material above.")
    with 60%nat.
  lia.
Qed.

(** ** The cleaners: what they keep and where they agree *)

Lemma length_strip (s : string) : (String.length (strip s) <= String.length s)%nat.
Proof.
  unfold strip. pose proof (length_rstrip (lstrip s)). pose proof (length_lstrip s). lia.
Qed.

Lemma length_slice_to (s : string) (stop : Z) :
  (String.length (slice_to s stop) <= String.length s)%nat.
Proof. unfold slice_to. apply length_substring_0_le. Qed.

Lemma length_join_rest (s : string) :
  (String.length (join NL (drop 1 (split s LF))) <= String.length s)%nat.
Proof.
  pose proof (join_split s) as Hj. pose proof (split_not_nil s) as Hne.
  destruct (split s LF) as [|l0 [|l1 ls]]; [congruence | cbn; lia |].
  rewrite join_cons2 in Hj. cbn [drop]. rewrite <- Hj.
  rewrite !length_append. lia.
Qed.

(** X11.  Cleaning never adds a character: the cleaned text is at most
    as long as the response. *)
Theorem clean_response_never_longer (response_text : string) :
  (String.length (clean_response response_text) <= String.length response_text)%nat.
Proof.
  unfold clean_response. destruct (startswith response_text fence); [|lia].
  pose proof (length_join_rest response_text) as Hrest.
  set (unwrapped := match split response_text LF with
                    | l0 :: _ :: _ =>
                        if startswith l0 fence
                        then join NL (drop 1 (split response_text LF))
                        else response_text
                    | _ => response_text
                    end).
  assert (String.length unwrapped <= String.length response_text)%nat as Hu.
  { unfold unwrapped. destruct (split response_text LF) as [|l0 [|l1 ls]]; try lia.
    destruct (startswith l0 fence); [exact Hrest | lia]. }
  destruct (endswith unwrapped fence); [|exact Hu].
  pose proof (length_strip (slice_to unwrapped (-3))).
  pose proof (length_slice_to unwrapped (-3)). lia.
Qed.

(** *** [strip] is idempotent *)

Lemma rstrip_cons_nonempty (c : ascii) (s : string) :
  rstrip s <> "" -> rstrip (String c s) = String c (rstrip s).
Proof. intros Hne. cbn [rstrip]. now destruct (rstrip s). Qed.

Lemma rstrip_idempotent (s : string) : rstrip (rstrip s) = rstrip s.
Proof.
  induction s as [|c s IH]; [reflexivity |]. cbn [rstrip].
  destruct (rstrip s) as [|a r] eqn:Hr.
  - destruct (isspace c) eqn:Hc; [reflexivity |]. cbn [rstrip]. now rewrite Hc.
  - rewrite rstrip_cons_nonempty by (rewrite IH; discriminate). now rewrite IH.
Qed.

Lemma lstrip_head (s : string) :
  lstrip s = "" \/ exists c t, lstrip s = String c t /\ isspace c = false.
Proof.
  induction s as [|c s IH]; [now left |]. cbn [lstrip].
  destruct (isspace c) eqn:Hc; [exact IH | right; eauto].
Qed.

Lemma lstrip_rstrip_lstrip (s : string) : lstrip (rstrip (lstrip s)) = rstrip (lstrip s).
Proof.
  destruct (lstrip_head s) as [->|(c & t & -> & Hc)]; [reflexivity |].
  cbn [rstrip]. destruct (rstrip t); rewrite ?Hc; cbn [lstrip]; now rewrite Hc.
Qed.

Lemma strip_idempotent (s : string) : strip (strip s) = strip s.
Proof. unfold strip. now rewrite lstrip_rstrip_lstrip, rstrip_idempotent. Qed.

Lemma lstrip_newline (s : string) : lstrip (NL +:+ s) = lstrip s.
Proof. reflexivity. Qed.

(** A text whose first and last characters are no spaces is its own
    [strip]. *)
Lemma strip_between (c d : ascii) (s : string) :
  isspace c = false -> isspace d = false ->
  strip (String c (s +:+ String d "")) = String c (s +:+ String d "").
Proof.
  intros Hc Hd. unfold strip. cbn [lstrip]. rewrite Hc.
  assert (forall t, rstrip (t +:+ String d "") = t +:+ String d "") as Hr.
  { induction t as [|x t IH].
    - rewrite append_nil_l. cbn [rstrip]. now rewrite Hd.
    - rewrite append_cons, rstrip_cons_nonempty; rewrite IH; [reflexivity |].
      now destruct t. }
  rewrite <- append_cons. apply Hr.
Qed.

Lemma startswith_shorter (s a b : string) :
  startswith s (a +:+ b) = true -> startswith s a = true.
Proof.
  unfold startswith. revert s. induction a as [|c a IH]; intros s Hp.
  - now destruct s.
  - rewrite append_cons in Hp. destruct s as [|x s]; [discriminate |].
    cbn [String.prefix] in *. destruct (ascii_dec c x); [|discriminate]. now apply IH.
Qed.

(** X12.  What [extract_json] hands to the parser carries no outer
    whitespace, and a text without a fence at either end of its trimmed
    form is handed over trimmed and otherwise unchanged. *)
Theorem extract_json_text_trimmed (content : string) :
  strip (extract_json_text content) = extract_json_text content
  /\ (startswith (strip content) fence = false ->
      endswith (strip content) fence = false ->
      extract_json_text content = strip content).
Proof.
  unfold extract_json_text. split; [apply strip_idempotent |].
  intros Hs He.
  assert (startswith (strip content) "```json" = false) as ->.
  { destruct (startswith (strip content) "```json") eqn:Hp; [|reflexivity].
    apply (startswith_shorter _ fence "json") in Hp. congruence. }
  rewrite Hs, He. apply strip_idempotent.
Qed.

Lemma extract_json_text_trimmed_witness :
  extract_json_text "  {...}  " = strip "  {...}  ".
Proof.
  apply (extract_json_text_trimmed "  {...}  "); reflexivity.
Defined.

Lemma substring_skip (p s : string) (m : nat) :
  substring (String.length p) m (p +:+ s) = substring 0 m s.
Proof.
  induction p as [|c p IH]; [reflexivity |]. rewrite append_cons. exact IH.
Qed.

Lemma slice_from_append (p s : string) : slice_from (p +:+ s) (String.length p) = s.
Proof.
  unfold slice_from. rewrite length_append, substring_skip.
  apply substring_0_all. lia.
Qed.

(** *** The cleaners on a text that begins with the fence marker *)















(** X13.  On a payload without outer whitespace that is wrapped as
    [```json], a line feed, the payload, a line feed and [```], the
    three cleaners agree: each returns the payload. *)
Theorem cleaners_agree_on_json_fence (body : string) :
  strip body = body ->
  let wrapped := "```json" +:+ NL +:+ body +:+ NL +:+ "```" in
  clean_response wrapped = body
  /\ extract_json_text wrapped = body
  /\ content_clean wrapped = body.
Proof.
  intros Hb wrapped.
  assert (strip wrapped = wrapped) as Hw.
  { assert (wrapped
            = String "`" (("``json" +:+ NL +:+ body +:+ NL +:+ "``") +:+ String "`" ""))
      as -> by (unfold wrapped; rewrite !append_assoc; reflexivity).
    now apply strip_between. }
  assert (strip (slice_to (NL +:+ body +:+ NL +:+ "```") (-3)) = body) as Hinner.
  { rewrite <- (append_assoc body), <- (append_assoc NL).
    change (-3) with (- Z.of_nat (String.length "```")).
    rewrite slice_to_append by (cbn; lia).
    unfold strip. rewrite lstrip_newline. now apply strip_trailing_newline. }
  assert (endswith (NL +:+ body +:+ NL +:+ "```") "```" = true) as Hend.
  { rewrite <- (append_assoc body), <- (append_assoc NL). apply endswith_append. }
  split; [|split].
  - apply (clean_response_wrapped "```json" body); [reflexivity | reflexivity | exact Hb].
  - unfold extract_json_text. rewrite Hw. unfold wrapped.
    rewrite startswith_append.
    change 7%nat with (String.length "```json"). rewrite slice_from_append.
    unfold fence. rewrite Hend. exact Hinner.
  - unfold content_clean. rewrite Hw. unfold wrapped. cbn [fold_left].
    rewrite startswith_append, slice_from_append.
    change (startswith (NL +:+ body +:+ NL +:+ "```") "```") with false. cbv iota.
    rewrite Hend. exact Hinner.
Qed.

Lemma cleaners_agree_on_json_fence_witness :
  clean_response ("```json" +:+ NL +:+ "{...}" +:+ NL +:+ "```") = "{...}"
  /\ extract_json_text ("```json" +:+ NL +:+ "{...}" +:+ NL +:+ "```") = "{...}"
  /\ content_clean ("```json" +:+ NL +:+ "{...}" +:+ NL +:+ "```") = "{...}".
Proof.
  apply (cleaners_agree_on_json_fence "{...}"). reflexivity.
Defined.

(** X14.  The cleaner of [test_zai_direct.py] and [extract_json] return
    the same text, unless a second fence follows [```json] at once: the
    loop removes it, the [elif] does not. *)
Theorem content_clean_is_extract_json_text (content : string) :
  (startswith (strip content) "```json" = true ->
   startswith (slice_from (strip content) 7) "```" = false) ->
  content_clean content = extract_json_text content.
Proof.
  intros Hsecond. unfold content_clean, extract_json_text. cbn [fold_left].
  change (String.length "```json") with 7%nat. change (String.length "```") with 3%nat.
  unfold fence.
  destruct (startswith (strip content) "```json") eqn:Hj; [|reflexivity].
  now rewrite (Hsecond eq_refl).
Qed.

Lemma content_clean_is_extract_json_text_witness :
  content_clean ("  ```" +:+ NL +:+ "{...}```  ")
  = extract_json_text ("  ```" +:+ NL +:+ "{...}```  ").
Proof.
  apply content_clean_is_extract_json_text. discriminate.
Defined.

(** Where the two differ. *)
Example content_clean_removes_second_fence :
  content_clean "```json```{}```" = "{}"
  /\ extract_json_text "```json```{}```" = "```{}".
Proof. split; reflexivity. Qed.

(** ** Normal forms of the answers in the two scripts *)

Lemma isspace_lower_char (c : ascii) : isspace (lower_char c) = isspace c.
Proof. destruct c as [[] [] [] [] [] [] [] []]; reflexivity. Qed.

Lemma lower_empty (s : string) : lower s = "" -> s = "".
Proof. now destruct s. Qed.

Lemma lstrip_lower (s : string) : lstrip (lower s) = lower (lstrip s).
Proof.
  induction s as [|c s IH]; [reflexivity |]. cbn [lower lstrip].
  rewrite isspace_lower_char. now destruct (isspace c).
Qed.

Lemma rstrip_lower (s : string) : rstrip (lower s) = lower (rstrip s).
Proof.
  induction s as [|c s IH]; [reflexivity |]. cbn [lower rstrip].
  rewrite IH, isspace_lower_char.
  destruct (rstrip s) as [|a r]; cbn [lower]; [now destruct (isspace c) | reflexivity].
Qed.

Lemma strip_lower (s : string) : strip (lower s) = lower (strip s).
Proof. unfold strip. now rewrite lstrip_lower, rstrip_lower. Qed.

Section VarietyFacts.

Context {F : Type} `{PyFloat F}.

Lemma answers_of_clues (rows : list Clue) :
  answers_of (map (clue_json (F:=F)) rows)
  = Ok (map (fun k => normalize (response k)) rows).
Proof.
  induction rows as [|k rows IH]; [reflexivity |]. cbn [map answers_of].
  change (clue_json k) with (clue_obj (F:=F) (value k) (clue k) (response k)).
  unfold clue_obj. cbn [py_get bind].
  change (default (JStr "") _) with (JStr (F:=F) (response k)).
  cbn [py_lower bind]. rewrite IH. cbn [bind]. unfold normalize.
  now rewrite strip_lower.
Qed.

(** X15.  [assess_quality] lower-cases and then trims a response, the
    evaluator trims and then lower-cases it: the normal forms are the
    same.  So, for clues that all carry a response, the evaluator finds
    the answers unique exactly when "Variety" counts as many answers as
    there are clues. *)
Theorem variety_agrees_with_unique_answers (MODEL_PRICING : gmap string (Pricing F))
    (rows : list Clue) (expected_values : list Z) (elapsed_time : F)
    (model : string) (p c : Z) :
  rows <> [] -> Forall (fun k => response k <> "") rows ->
  exists r,
    evaluate_response MODEL_PRICING (Ok (payload (map clue_json rows)))
      expected_values elapsed_time model p c = Ok r
    /\ answers_of (map (clue_json (F:=F)) rows)
       = Ok (map (fun k => lower (strip (response k))) rows)
    /\ variety (JArr (map (clue_json (F:=F)) rows))
       = Ok (size (list_to_set (normal_responses rows) : gset string))
    /\ (unique_answers r = true
        <-> variety (JArr (map (clue_json (F:=F)) rows)) = Ok (length rows)).
Proof.
  intros Hne Hall.
  assert (speaking rows = rows) as Hsp.
  { unfold speaking. clear Hne. induction Hall as [|k rows Hk _ IH]; [reflexivity |].
    cbn [List.filter]. apply String.eqb_neq in Hk. rewrite Hk. cbn [negb]. now rewrite IH. }
  assert (variety (JArr (map (clue_json (F:=F)) rows))
          = Ok (size (list_to_set (normal_responses rows) : gset string))) as Hv.
  { unfold variety. cbn [py_iter bind]. rewrite answers_of_clues. cbn [bind].
    unfold normal_responses. now rewrite Hsp. }
  destruct (evaluate_clue_rows MODEL_PRICING rows expected_values elapsed_time model p c Hne)
    as (r & Hr & _ & _ & _ & _ & Hu & _).
  exists r. split; [exact Hr |]. split; [apply answers_of_clues |]. split; [exact Hv |].
  rewrite Hv, Hu.
  assert (length (normal_responses rows) = length rows) as ->
    by (unfold normal_responses; now rewrite Hsp, length_map).
  split.
  - intros Heq%bool_decide_eq_true. now rewrite <- Heq.
  - intros [= Heq]. apply bool_decide_eq_true_2. now rewrite Heq.
Qed.

End VarietyFacts.

Lemma variety_agrees_with_unique_answers_witness :
  variety (F:=Q) (JArr (map clue_json rome_three_times)) = Ok 1%nat.
Proof.
  destruct (variety_agrees_with_unique_answers (F:=Q) ∅ rome_three_times
              CANONICAL_LADDER 0%Q "" 0 0) as (r & _ & _ & Hv & _).
  - discriminate.
  - repeat constructor; discriminate.
  - rewrite Hv. vm_compute. reflexivity.
Defined.

(** ** One run and the summary row *)

Section DriverFacts.

Context {F : Type} `{PyFloat F}.

Variable json_loads : string -> result (json F).
Variable exn_str : exn -> string.


Lemma count_where_total (get : Evaluation F -> result bool)
    (results : list (TestResult F)) :
  Forall (fun r => exists b, get (evaluation r) = Ok b) results ->
  exists n, count_where get results = Ok n /\ 0 <= n <= Z.of_nat (length results).
Proof.
  induction 1 as [|r rs [b Hb] _ (n & Hn & Hbound)]; cbn [count_where length].
  - exists 0. split; [reflexivity | lia].
  - rewrite Hb, Hn. cbn [bind]. eexists. split; [reflexivity |]. destruct b; lia.
Qed.

Lemma count_where_KeyError (get : Evaluation F -> result bool)
    (results : list (TestResult F)) :
  Forall (fun r => get (evaluation r) = Raise KeyError \/ exists b, get (evaluation r) = Ok b)
    results ->
  Exists (fun r => get (evaluation r) = Raise KeyError) results ->
  count_where get results = Raise KeyError.
Proof.
  induction 1 as [|r rs Hr Hall IH]; intros Hex; [inversion Hex |].
  cbn [count_where]. destruct Hr as [->|[b Hb]]; [reflexivity |]. rewrite Hb. cbn [bind].
  rewrite IH; [reflexivity |]. apply Exists_cons in Hex as [Hr|Hrs]; [congruence | exact Hrs].
Qed.

(** X17.  The summary row of a model cannot be computed once one of its
    runs has failed: the failure dict has no ["all_values_present"], and
    the second sum raises [KeyError].  When every run succeeded, the
    three counts exist and lie between 0 and the number of runs. *)
Theorem summary_counts_need_all_runs_to_succeed
    (MODEL_PRICING : gmap string (Pricing F)) (model : string)
    (runs : list (ApiOutcome * F * F)) :
  let results :=
    map (fun run => test_model json_loads exn_str MODEL_PRICING model
                      run.1.1 run.1.2 run.2) runs in
  (Exists (fun r => success r = false) results ->
   summary_counts results = Raise KeyError)
  /\ (Forall (fun r => success r = true) results ->
      exists valid_count all_values_count unique_count,
        summary_counts results = Ok (valid_count, all_values_count, unique_count)
        /\ 0 <= valid_count <= Z.of_nat (length runs)
        /\ 0 <= all_values_count <= Z.of_nat (length runs)
        /\ 0 <= unique_count <= Z.of_nat (length runs)).
Proof.
  intros results.
  assert (Forall (fun r => (success r = true /\ exists e, evaluation r = Evaluated e)
                           \/ (success r = false /\ exists f, evaluation r = Failed f))
            results) as Hkind.
  { unfold results. apply Forall_map, Forall_forall. intros [[api t] t'] _. cbn [fst snd].
    unfold test_model. destruct api as [content usage|message].
    - destruct (evaluate_response _ _ _ _ _ _ _); [left | right]; cbn; eauto.
    - right. cbn. eauto. }
  assert (exists n, count_where get_valid_json results = Ok n
                    /\ 0 <= n <= Z.of_nat (length results)) as (v & Hv & Hvb).
  { apply count_where_total. eapply Forall_impl; [exact Hkind |].
    intros r [[_ [e ->]]|[_ [f ->]]]; cbn; eauto. }
  assert (length results = length runs) as Hlen by (unfold results; apply length_map).
  unfold summary_counts. rewrite Hv. cbn [bind]. split.
  - intros Hex. rewrite (count_where_KeyError get_all_values_present); [reflexivity | |].
    + eapply Forall_impl; [exact Hkind |].
      intros r [[_ [e ->]]|[_ [f ->]]]; cbn; eauto.
    + rewrite Exists_exists in Hex |- *. destruct Hex as (r & Hin & Hs). exists r.
      split; [exact Hin |]. rewrite Forall_forall in Hkind.
      destruct (Hkind r Hin) as [[Hs' _]|[_ [f ->]]]; [congruence | reflexivity].
  - intros Hall.
    assert (Forall (fun r => exists e, evaluation r = Evaluated e) results) as Hev.
    { rewrite Forall_forall in Hkind, Hall |- *. intros r Hin.
      destruct (Hkind r Hin) as [[_ He]|[Hs _]]; [exact He |].
      rewrite (Hall r Hin) in Hs. discriminate. }
    destruct (count_where_total get_all_values_present results) as (a & Ha & Hab).
    { eapply Forall_impl; [exact Hev |]. intros r [e ->]. cbn. eauto. }
    destruct (count_where_total get_unique_answers results) as (u & Hu & Hub).
    { eapply Forall_impl; [exact Hev |]. intros r [e ->]. cbn. eauto. }
    rewrite Ha, Hu. cbn [bind]. exists v, a, u. rewrite <- Hlen. repeat split; lia.
Qed.

End DriverFacts.


Lemma summary_counts_need_all_runs_to_succeed_witness :
  summary_counts
    (map (fun run => test_model (F:=Q) (fun _ => Ok (JArr [])) (fun _ => "") ∅ "m"
                       run.1.1 run.1.2 run.2)
         [(ApiReply (Some "[]") None, 0%Q, 0%Q)])
  = Raise KeyError.
Proof.
  apply (summary_counts_need_all_runs_to_succeed (F:=Q) (fun _ => Ok (JArr []))
           (fun _ => "") ∅ "m" [(ApiReply (Some "[]") None, 0%Q, 0%Q)]).
  apply Exists_cons_hd. reflexivity.
Defined.

(** ** The quality report of [benchmark_ai.py] *)

Tactic Notation "bind_as" hyp(H) ident(x) ident(Hx) :=
  apply bind_Ok in H as (x & Hx & H).

Section QualityFacts.

Context {F : Type} `{PyFloat F}.

Variable sorted_differ : list (json F) -> list Z -> result bool.

(** X18.  For a payload that is missing ([None], as [extract_json]
    returns it after a parse error), empty, or a dict without
    ["categories"], [evaluate_quality] returns the fixed dict of the
    early return; that dict has no ["creative_titles"], so [print_result]
    raises [KeyError] on it. *)
Theorem invalid_payload_breaks_print_result (data : json F) :
  py_bool data = false
  \/ (exists kvs, data = JObj kvs /\ dict_get kvs "categories" = None) ->
  evaluate_quality sorted_differ data = Ok invalid_quality
  /\ print_result invalid_quality = Raise KeyError.
Proof.
  intros Hdata. split; [|reflexivity]. unfold evaluate_quality.
  destruct (py_bool data) eqn:Hb; cbn [negb bind]; [|reflexivity].
  destruct Hdata as [Hf|(kvs & -> & Hk)]; [discriminate |].
  cbn [py_in_str bind]. rewrite Hk.
  rewrite bool_decide_eq_false_2 by (intros [? ?]; discriminate). reflexivity.
Qed.

Lemma py_len_nonneg (o : json F) (n : Z) : py_len o = Ok n -> 0 <= n.
Proof. destruct o; cbn [py_len]; intros [= <-]; lia. Qed.

Lemma check_fields_grows (cat : json F) (items : list (json F)) :
  forall issues issues',
    check_fields cat items issues = Ok issues' ->
    (length issues <= length issues')%nat.
Proof.
  induction items as [|clue items IH]; intros issues issues' Hc.
  - injection Hc as <-. lia.
  - cbn [check_fields] in Hc.
    bind_as Hc t Ht. bind_as Hc issues1 H1. bind_as Hc r Hr. bind_as Hc issues2 H2.
    apply IH in Hc.
    assert (length issues <= length issues1)%nat.
    { destruct (py_bool t); [injection H1 as <-; lia |].
      bind_as H1 title Htitle. injection H1 as <-. rewrite length_app. lia. }
    assert (length issues1 <= length issues2)%nat.
    { destruct (py_bool r); [injection H2 as <-; lia |].
      bind_as H2 title Htitle. injection H2 as <-. rewrite length_app. lia. }
    lia.
Qed.

(** One pass of the loop over the categories. *)
Lemma check_category_step (cat : json F) (st st' : QualityState) :
  check_category sorted_differ cat st = Ok st' ->
  (length (st_issues st) <= length (st_issues st'))%nat
  /\ (length (st_title_creativity st) <= length (st_title_creativity st')
      <= length (st_title_creativity st) + 1)%nat
  /\ exists n, 0 <= n /\ st_total_clues st' = st_total_clues st + n
       /\ ((n = 5 /\ st_complete_clues st' = st_complete_clues st + 1)
           \/ (n <> 5 /\ st_complete_clues st' = st_complete_clues st
               /\ (length (st_issues st) < length (st_issues st'))%nat)).
Proof.
  unfold check_category. intros Hc.
  bind_as Hc clues Hclues. bind_as Hc n Hlen. pose proof (py_len_nonneg _ _ Hlen) as Hn.
  bind_as Hc ci Hci. bind_as Hc items Hitems. bind_as Hc actual Hactual.
  bind_as Hc differ Hdiffer. bind_as Hc issues1 Hissues1. bind_as Hc issues2 Hissues2.
  bind_as Hc title Htitle. bind_as Hc topic Htopic. bind_as Hc creative Hcreative.
  injection Hc as <-.
  cbn [st_issues st_total_clues st_complete_clues st_title_creativity].
  apply check_fields_grows in Hissues2.
  assert (length (snd ci) <= length issues1)%nat as Hdiff.
  { destruct differ; [|injection Hissues1 as <-; lia].
    bind_as Hissues1 t Ht. injection Hissues1 as <-. rewrite length_app. lia. }
  assert (length issues2
          <= length (if negb (py_bool title) || negb (py_bool topic)
                     then issues2 ++ ["Missing title or contentTopic in category"]
                     else issues2))%nat as Hmiss.
  { destruct (negb (py_bool title) || negb (py_bool topic)); [rewrite length_app|]; lia. }
  split; [|split].
  - destruct (Z.eqb_spec n 5).
    + injection Hci as <-. cbn [snd] in *. lia.
    + bind_as Hci t Ht. injection Hci as <-. cbn [snd] in *.
      rewrite length_app in Hdiff. lia.
  - destruct (py_bool title && py_bool topic); [|injection Hcreative as <-; lia].
    bind_as Hcreative tl Htl. bind_as Hcreative cl Hcl.
    destruct (negb (contains cl tl)); injection Hcreative as <-;
      [rewrite length_app; cbn|]; lia.
  - exists n. split; [exact Hn |]. split; [reflexivity |].
    destruct (Z.eqb_spec n 5).
    + injection Hci as <-. cbn [fst]. left. split; [assumption | reflexivity].
    + bind_as Hci t Ht. injection Hci as <-. cbn [fst snd] in *. right.
      split; [assumption |]. split; [reflexivity |].
      rewrite length_app in Hdiff. cbn in Hdiff. lia.
Qed.

Lemma check_categories_steps (cats : list (json F)) :
  forall st st',
    check_categories sorted_differ cats st = Ok st' ->
    (length (st_issues st) <= length (st_issues st'))%nat
    /\ (length (st_title_creativity st') <= length (st_title_creativity st) + length cats)%nat
    /\ st_complete_clues st <= st_complete_clues st'
       <= st_complete_clues st + Z.of_nat (length cats)
    /\ st_total_clues st + 5 * (st_complete_clues st' - st_complete_clues st)
       <= st_total_clues st'
    /\ (length (st_issues st') = length (st_issues st) ->
        st_complete_clues st' = st_complete_clues st + Z.of_nat (length cats)
        /\ st_total_clues st' = st_total_clues st + 5 * Z.of_nat (length cats)).
Proof.
  induction cats as [|cat cats IH]; intros st st' Hc.
  - injection Hc as <-. cbn [length]. repeat split; lia.
  - cbn [check_categories] in Hc. bind_inv Hc.
    apply check_category_step in E as (Hi & Ht & n & Hn & Htot & Hcase).
    apply IH in Hc as (Hi' & Ht' & Hc' & Htot' & Hsame). cbn [length].
    split; [lia |]. split; [lia |]. split; [lia |]. split; [lia |].
    intros Heq. destruct Hcase as [[-> Hcomp]|(_ & _ & Hlt)]; [|lia].
    destruct Hsame as [Hs1 Hs2]; [lia |]. lia.
Qed.

(** X19.  In every report of a payload with categories: the complete
    categories are at most the categories, every complete category
    brings five clues into the total, the creative titles are at most
    the categories.  A report without issues has exactly 6 categories,
    all complete, 30 clues in total, and [print_result] passes it. *)
Theorem quality_report_counts (data : json F) (q : Quality.t) :
  evaluate_quality sorted_differ data = Ok q ->
  Quality.valid_json q = true ->
  0 <= Quality.complete_clues q <= Quality.category_count q
  /\ 5 * Quality.complete_clues q <= Quality.total_clues q
  /\ (exists k, Quality.creative_titles q = Some k /\ 0 <= k <= Quality.category_count q)
  /\ Quality.has_categories q = (0 <? Quality.category_count q)
  /\ (Quality.issues q = [] ->
      Quality.category_count q = 6 /\ Quality.complete_clues q = 6
      /\ Quality.total_clues q = 30 /\ print_result q = Ok true).
Proof.
  unfold evaluate_quality. intros Hq Hvalid.
  bind_as Hq missing Hmissing. destruct missing; [injection Hq as <-; discriminate Hvalid |].
  bind_as Hq categories Hcats. bind_as Hq n Hn'. bind_as Hq cats Hiter. bind_as Hq st Hst.
  injection Hq as <-.
  assert (length cats = Z.to_nat n /\ 0 <= n) as [Hlen Hn].
  { destruct categories as [| | | |s|l|kvs]; try discriminate; cbn [py_len py_iter] in *;
      injection Hn' as <-; injection Hiter as <-; rewrite ?length_map.
    - split; [|lia]. rewrite Nat2Z.id. clear. induction s; cbn; congruence.
    - split; lia.
    - split; lia. }
  apply check_categories_steps in Hst as (Hi & Ht & Hc & Htot & Hsame).
  cbn [st_issues st_total_clues st_complete_clues st_title_creativity length] in *.
  unfold print_result.
  cbn [Quality.valid_json Quality.complete_clues Quality.category_count
       Quality.total_clues Quality.creative_titles Quality.has_categories Quality.issues].
  split; [lia |]. split; [lia |]. split; [eexists; split; [reflexivity | lia] |].
  split; [reflexivity |].
  intros Hnil. rewrite Hnil in Hi, Hsame. cbn [length] in Hi, Hsame.
  destruct (Z.eqb_spec n 6) as [->|Hne]; cbn [negb length] in *; [|lia].
  destruct Hsame as [-> ->]; [reflexivity |]. rewrite Hlen. repeat split.
Qed.

End QualityFacts.

Section GameFacts.

Context {F : Type} `{PyFloat F}.

Variable sorted_differ : list (json F) -> list Z -> result bool.

(** Sorting a permutation of the ladder gives the sorted ladder. *)
Hypothesis sorted_ladder :
  forall vs : list Z,
    vs ≡ₚ [200; 400; 600; 800; 1000] ->
    sorted_differ (map (fun n => JInt n) vs) [200; 400; 600; 800; 1000] = Ok false.

Lemma actual_values_of_clues (rows : list Clue) :
  actual_values_of (map (clue_json (F:=F)) rows) = Ok (map (fun n => JInt n) (map value rows)).
Proof.
  induction rows as [|k rows IH]; [reflexivity |]. cbn [map actual_values_of].
  change (clue_json k) with (clue_obj (F:=F) (value k) (clue k) (response k)).
  unfold clue_obj. cbn [py_get bind]. rewrite IH. reflexivity.
Qed.

Lemma check_fields_clues (cat : json F) (rows : list Clue) (issues : list string) :
  Forall (fun c => clue c <> "" /\ response c <> "") rows ->
  check_fields cat (map (clue_json (F:=F)) rows) issues = Ok issues.
Proof.
  induction 1 as [|k rows [Hc Hr] _ IH]; [reflexivity |]. cbn [map check_fields].
  change (clue_json k) with (clue_obj (F:=F) (value k) (clue k) (response k)).
  unfold clue_obj. cbn [py_get bind].
  change (default JNull (dict_get _ "clue")) with (JStr (F:=F) (clue k)).
  change (default JNull (dict_get _ "response")) with (JStr (F:=F) (response k)).
  cbn [py_bool]. apply String.eqb_neq in Hc, Hr. rewrite Hc, Hr. cbn [negb bind]. exact IH.
Qed.

Lemma check_category_well_formed (k : Category.t) (st : QualityState) :
  well_formed_category k ->
  check_category sorted_differ (category_json k) st
  = Ok {| st_issues := st_issues st;
          st_total_clues := st_total_clues st + 5;
          st_complete_clues := st_complete_clues st + 1;
          st_title_creativity :=
            if creative k then st_title_creativity st ++ [Category.title k]
            else st_title_creativity st |}.
Proof.
  intros (Ht & Hc & Hperm & Hrows). unfold check_category, category_json.
  cbn [py_get bind]. change (default (JArr []) _)
    with (JArr (map (clue_json (F:=F)) (Category.clues k))).
  change (default (JStr "") (dict_get _ "title")) with (JStr (F:=F) (Category.title k)).
  change (default (JStr "") (dict_get _ "contentTopic"))
    with (JStr (F:=F) (Category.contentTopic k)).
  cbn [py_len py_iter bind]. rewrite length_map.
  assert (length (Category.clues k) = 5%nat) as ->
    by (apply Permutation_length in Hperm; now rewrite length_map in Hperm).
  change (Z.of_nat 5) with 5. change (5 =? 5) with true. cbn [bind fst snd].
  rewrite actual_values_of_clues. cbn [bind].
  rewrite (sorted_ladder _ Hperm). cbn [bind].
  rewrite (check_fields_clues _ _ _ Hrows). cbn [bind py_bool py_lower].
  apply String.eqb_neq in Ht, Hc. rewrite Ht, Hc. cbn [negb orb andb bind py_str].
  unfold creative. now destruct (negb _).
Qed.

Lemma check_categories_well_formed (cats : list Category.t) :
  Forall well_formed_category cats ->
  forall st,
    exists st',
      check_categories sorted_differ (map category_json cats) st = Ok st'
      /\ st_issues st' = st_issues st
      /\ st_total_clues st' = st_total_clues st + 5 * Z.of_nat (length cats)
      /\ st_complete_clues st' = st_complete_clues st + Z.of_nat (length cats)
      /\ length (st_title_creativity st')
         = (length (st_title_creativity st) + length (List.filter creative cats))%nat.
Proof.
  induction 1 as [|k cats Hk _ IH]; intros st.
  - exists st. cbn. repeat split; lia.
  - cbn [map check_categories]. rewrite (check_category_well_formed _ _ Hk). cbn [bind].
    destruct (IH {| st_issues := st_issues st;
                    st_total_clues := st_total_clues st + 5;
                    st_complete_clues := st_complete_clues st + 1;
                    st_title_creativity :=
                      if creative k then st_title_creativity st ++ [Category.title k]
                      else st_title_creativity st |})
      as (st' & -> & Hi & Ht & Hc & Hl).
    exists st'. split; [reflexivity |].
    cbn [st_issues st_total_clues st_complete_clues st_title_creativity] in *.
    cbn [length List.filter]. split; [exact Hi |]. split; [lia |]. split; [lia |].
    rewrite Hl. destruct (creative k); [rewrite length_app|]; cbn [length]; lia.
Qed.

(** X20.  A game of six categories as the prompt asks for them (both
    names, five clues with their texts, the five values in any order)
    is reported without issues, with 6 complete categories and 30
    clues, and passes; its creative titles are the titles whose lower
    case does not occur in the lower case of the topic. *)
Theorem well_formed_game_passes (cats : list Category.t) :
  length cats = 6%nat -> Forall well_formed_category cats ->
  exists q,
    evaluate_quality sorted_differ (game cats) = Ok q
    /\ Quality.issues q = []
    /\ Quality.category_count q = 6 /\ Quality.complete_clues q = 6
    /\ Quality.total_clues q = 30
    /\ Quality.creative_titles q = Some (Z.of_nat (length (List.filter creative cats)))
    /\ print_result q = Ok true.
Proof.
  intros Hlen Hwf. unfold evaluate_quality, game.
  assert (py_bool (JObj [("categories", JArr (map (category_json (F:=F)) cats))]) = true)
    as -> by reflexivity.
  cbn [negb bind py_in_str dict_get String.eqb Ascii.eqb Bool.eqb].
  rewrite bool_decide_eq_true_2 by eauto. cbn [negb bind py_get].
  change (default (JArr []) _) with (JArr (map (category_json (F:=F)) cats)).
  cbn [py_len py_iter bind]. rewrite length_map, Hlen.
  change (Z.of_nat 6) with 6. change (6 =? 6) with true. cbn [negb].
  destruct (check_categories_well_formed cats Hwf
              {| st_issues := []; st_total_clues := 0;
                 st_complete_clues := 0; st_title_creativity := [] |})
    as (st' & -> & Hi & Ht & Hc & Hl).
  cbn [bind]. eexists. split; [reflexivity |].
  cbn [st_issues st_total_clues st_complete_clues st_title_creativity length] in *.
  unfold print_result.
  cbn [Quality.valid_json Quality.complete_clues Quality.category_count
       Quality.total_clues Quality.creative_titles Quality.issues].
  rewrite Hi, Ht, Hc, Hl, Hlen. repeat split.
Qed.

End GameFacts.

Lemma sorted_differ_ints_ladder {F : Type} (vs : list Z) :
  vs ≡ₚ [200; 400; 600; 800; 1000] ->
  sorted_differ_ints (F:=F) (map (fun n => JInt n) vs) [200; 400; 600; 800; 1000] = Ok false.
Proof.
  intros Hperm. unfold sorted_differ_ints.
  assert (ints_of (map (fun n => JInt (F:=F) n) vs) = Some vs) as ->.
  { clear. induction vs as [|v vs IH]; [reflexivity |]. cbn [map ints_of]. now rewrite IH. }
  f_equal. apply negb_false_iff. unfold same_multiset. apply forallb_forall.
  intros v _. apply Nat.eqb_eq. now apply Permutation_count_occ.
Qed.

Lemma sample_category_well_formed (title topic : string) :
  title <> "" -> topic <> "" -> well_formed_category (sample_category title topic).
Proof.
  intros Ht Hc. repeat split; try assumption.
  - apply (bool_decide_unpack _). vm_compute. exact I.
  - repeat constructor; discriminate.
Qed.

Lemma well_formed_game_passes_witness :
  exists q,
    evaluate_quality (F:=Q) sorted_differ_ints (game sample_game) = Ok q
    /\ Quality.issues q = [] /\ Quality.creative_titles q = Some 4.
Proof.
  destruct (well_formed_game_passes (F:=Q) sorted_differ_ints sorted_differ_ints_ladder
              sample_game) as (q & Hq & Hi & _ & _ & _ & Hc & _).
  - reflexivity.
  - repeat (constructor; [apply sample_category_well_formed; discriminate |]). constructor.
  - exists q. split; [exact Hq |]. split; [exact Hi |]. rewrite Hc. reflexivity.
Defined.

Lemma invalid_payload_breaks_print_result_witness :
  evaluate_quality (F:=Q) sorted_differ_ints JNull = Ok invalid_quality
  /\ print_result invalid_quality = Raise KeyError.
Proof.
  apply (invalid_payload_breaks_print_result (F:=Q) sorted_differ_ints JNull).
  left. reflexivity.
Defined.

Lemma quality_report_counts_witness :
  exists q,
    evaluate_quality (F:=Q) sorted_differ_ints
      (game [sample_category "Capitals" "World Capitals"]) = Ok q
    /\ 5 * Quality.complete_clues q <= Quality.total_clues q.
Proof.
  eexists. split; [vm_compute; reflexivity |].
  apply (quality_report_counts (F:=Q) sorted_differ_ints
           (game [sample_category "Capitals" "World Capitals"]));
    vm_compute; reflexivity.
Defined.

(** ** The environment file *)

Lemma contains_char_cons (x c : ascii) (s : string) :
  contains (String x s) (String c "") = Ascii.eqb c x || contains s (String c "").
Proof.
  rewrite contains_cons. cbn [String.prefix]. f_equal.
  destruct (ascii_dec c x) as [->|Hne].
  - rewrite Ascii.eqb_refl. now destruct s.
  - symmetry. now apply Ascii.eqb_neq.
Qed.

Lemma contains_char_append (a b : string) (c : ascii) :
  contains (a +:+ b) (String c "") = contains a (String c "") || contains b (String c "").
Proof.
  induction a as [|x a IH]; [reflexivity |].
  rewrite append_cons, !contains_char_cons, IH. apply orb_assoc.
Qed.

Lemma partition_first (a b : string) (c : ascii) (sep' : string) :
  contains a (String c "") = false ->
  PySplit.partition (a +:+ String c sep' +:+ b) (String c sep') = Some (a, b).
Proof.
  induction a as [|x a IH]; intros Ha.
  - rewrite append_nil_l. destruct (String c sep' +:+ b) eqn:E; [discriminate |].
    cbn [PySplit.partition]. rewrite <- E.
    change (String.prefix (String c sep') (String c sep' +:+ b))
      with (startswith (String c sep' +:+ b) (String c sep')).
    rewrite startswith_append. now rewrite slice_from_append.
  - rewrite contains_char_cons in Ha. apply orb_false_elim in Ha as [Hx Ha].
    rewrite append_cons. cbn [PySplit.partition String.prefix].
    destruct (ascii_dec c x) as [->|_]; [now rewrite Ascii.eqb_refl in Hx |].
    now rewrite (IH Ha).
Qed.

Lemma partition_absent (s : string) (c : ascii) (sep' : string) :
  contains s (String c "") = false -> PySplit.partition s (String c sep') = None.
Proof.
  induction s as [|x s IH]; intros Hs; [reflexivity |].
  rewrite contains_char_cons in Hs. apply orb_false_elim in Hs as [Hx Hs].
  cbn [PySplit.partition String.prefix].
  destruct (ascii_dec c x) as [->|_]; [now rewrite Ascii.eqb_refl in Hx |].
  now rewrite (IH Hs).
Qed.

Lemma contains_partition (s sep : string) :
  contains s sep = true -> exists before after, PySplit.partition s sep = Some (before, after).
Proof.
  induction s as [|x s IH]; intros Hs.
  - cbn [contains] in Hs. rewrite orb_false_r in Hs. cbn [PySplit.partition].
    rewrite Hs. eauto.
  - rewrite contains_cons in Hs. cbn [PySplit.partition].
    destruct (String.prefix sep (String x s)); [eauto |].
    destruct (IH Hs) as (before & after & ->). eauto.
Qed.

Lemma partition_contains (s sep before after : string) :
  PySplit.partition s sep = Some (before, after) -> contains s sep = true.
Proof.
  revert before. induction s as [|x s IH]; intros before.
  - cbn [PySplit.partition contains]. now destruct (String.prefix sep "").
  - rewrite contains_cons. cbn [PySplit.partition].
    destruct (String.prefix sep (String x s)); [reflexivity |].
    destruct (PySplit.partition s sep) as [[b a]|] eqn:E; [|discriminate].
    intros [= _ ->]. now rewrite (IH b eq_refl).
Qed.

Lemma split_one_occurrence (s sep before after : string) :
  PySplit.partition s sep = Some (before, after) ->
  PySplit.partition after sep = None ->
  s <> "" ->
  PySplit.split s sep = [before; after].
Proof.
  intros Hp Hnone Hs. unfold PySplit.split.
  destruct s as [|x s]; [congruence |]. cbn [String.length PySplit.split_upto].
  rewrite Hp. f_equal. destruct (String.length s); cbn [PySplit.split_upto];
    [reflexivity | now rewrite Hnone].
Qed.

Lemma split_first_item (s sep before after : string) :
  PySplit.partition s sep = Some (before, after) -> s <> "" ->
  PySplit.split s sep !! 0%nat = Some before.
Proof.
  intros Hp Hs. unfold PySplit.split.
  destruct s as [|x s]; [congruence |]. cbn [String.length PySplit.split_upto].
  now rewrite Hp.
Qed.

Lemma replace_last_occurrence (s old new before : string) :
  PySplit.partition s old = Some (before, "") -> old <> "" -> s <> "" ->
  PySplit.replace s old new = before +:+ new.
Proof.
  intros Hp Hold Hs. unfold PySplit.replace.
  destruct s as [|x s]; [congruence |]. cbn [String.length PySplit.replace_upto].
  rewrite Hp. f_equal.
  assert (forall n, PySplit.replace_upto n "" old new = "") as ->; [|apply append_nil_r].
  intros [|n]; [reflexivity |]. cbn [PySplit.replace_upto PySplit.partition].
  destruct old; [congruence | reflexivity].
Qed.

(** X21.  A file without [${] loads, whatever its lines are; a line that
    is blank, a comment, or has no [=] changes nothing; and without a
    file the environment is empty. *)
Theorem load_env_without_references (lines : list string) :
  Forall (fun line => contains (strip line) "${" = false) lines ->
  load_env None = Some ∅
  /\ (exists env_vars, load_env (Some lines) = Some env_vars)
  /\ (forall env_vars line,
        strip line = "" \/ startswith (strip line) "#" = true
        \/ contains (strip line) "=" = false ->
        load_env_line env_vars line = Some env_vars).
Proof.
  intros Hlines. split; [reflexivity |]. split.
  - unfold load_env. generalize (∅ : gmap string string).
    induction Hlines as [|line lines Hline _ IH]; intros env_vars; [cbn; eauto |].
    cbn [load_env_lines].
    assert (exists env_vars', load_env_line env_vars line = Some env_vars') as [env_vars' ->].
    { unfold load_env_line. rewrite Hline.
      destruct (negb (String.eqb (strip line) "") && negb (startswith (strip line) "#"));
        cbn [andb]; [|eauto].
      destruct (contains (strip line) "=") eqn:Heq; [|eauto].
      destruct (contains_partition _ _ Heq) as (key & value & Hp).
      unfold PySplit.split_once. rewrite Hp. eauto. }
    apply IH.
  - intros env_vars line Hskip. unfold load_env_line.
    destruct Hskip as [->|[->| ->]]; [reflexivity | |].
    + now rewrite andb_false_r.
    + now rewrite andb_false_r.
Qed.

Lemma load_env_without_references_witness :
  exists env_vars,
    load_env (Some ["# keys"; ""; "OPENROUTER_API_KEY = sk-123 "; "no assignment"])
    = Some env_vars.
Proof.
  apply (load_env_without_references
           ["# keys"; ""; "OPENROUTER_API_KEY = sk-123 "; "no assignment"]).
  repeat constructor.
Defined.

Lemma startswith_char_append (a b : string) (c : ascii) :
  a <> "" -> startswith (a +:+ b) (String c "") = startswith a (String c "").
Proof.
  intros Ha. destruct a as [|x a]; [congruence |]. rewrite append_cons.
  unfold startswith. cbn [String.prefix]. destruct (ascii_dec c x); [|reflexivity].
  now destruct (a +:+ b), a.
Qed.

(** X22.  A line [key=value] without a reference is split at its first
    [=]: the key is the trimmed text before it, the value the trimmed
    text after it, further [=] included; the entry replaces an older
    one, the other entries stay. *)
Theorem load_env_line_assigns (env_vars : gmap string string) (line key value : string) :
  strip line = key +:+ "=" +:+ value ->
  contains key "=" = false ->
  startswith key "#" = false ->
  contains (strip line) "${" = false ->
  exists env_vars',
    load_env_line env_vars line = Some env_vars'
    /\ env_vars' !! strip key = Some (strip value)
    /\ (forall other, other <> strip key -> env_vars' !! other = env_vars !! other).
Proof.
  intros Hline Hkey Hcomment Href.
  exists (<[strip key := strip value]> env_vars). split; [|split].
  - unfold load_env_line. rewrite Href, Hline.
    assert (String.eqb (key +:+ "=" +:+ value) "" = false) as ->
      by (apply String.eqb_neq; destruct key; discriminate).
    assert (startswith (key +:+ "=" +:+ value) "#" = false) as ->.
    { destruct key as [|x key]; [reflexivity |].
      now rewrite startswith_char_append by discriminate. }
    assert (contains (key +:+ "=" +:+ value) "=" = true) as ->.
    { rewrite contains_char_append. apply orb_true_iff. right.
      rewrite append_cons, contains_char_cons. now rewrite Ascii.eqb_refl. }
    cbn [negb andb]. unfold PySplit.split_once.
    now rewrite (partition_first key value "=" "" Hkey).
  - apply lookup_insert_eq.
  - intros other Hother. now apply lookup_insert_ne.
Qed.

Lemma load_env_line_assigns_witness :
  exists env_vars',
    load_env_line ∅ (" OPENAI_BASE_URL = https://openrouter.ai/api/v1?a=b " +:+ NL)
    = Some env_vars'
    /\ env_vars' !! "OPENAI_BASE_URL" = Some "https://openrouter.ai/api/v1?a=b".
Proof.
  destruct (load_env_line_assigns ∅
              (" OPENAI_BASE_URL = https://openrouter.ai/api/v1?a=b " +:+ NL)
              "OPENAI_BASE_URL " " https://openrouter.ai/api/v1?a=b")
    as (env_vars' & Hline & Hget & _); try reflexivity.
  exists env_vars'. split; [exact Hline | exact Hget].
Defined.

(** X23.  A line [key=${name}] takes the value that [name] has so far,
    and the empty text when [name] has none. *)
Theorem load_env_line_expands_reference
    (env_vars : gmap string string) (line key name : string) :
  strip line = key +:+ "=" +:+ "${" +:+ name +:+ "}" ->
  contains key "=" = false -> contains key "$" = false ->
  startswith key "#" = false ->
  contains name "$" = false -> contains name "}" = false ->
  load_env_line env_vars line
  = Some (<[strip key := strip (default "" (env_vars !! name))]> env_vars).
Proof.
  intros Hline Hkeq Hkd Hcomment Hnd Hnb. unfold load_env_line. rewrite Hline.
  set (text := key +:+ "=" +:+ "${" +:+ name +:+ "}").
  assert (text <> "") as Htext by (unfold text; destruct key; discriminate).
  assert (String.eqb text "" = false) as -> by now apply String.eqb_neq.
  assert (startswith text "#" = false) as ->.
  { unfold text. destruct key as [|x key]; [reflexivity |].
    now rewrite startswith_char_append by discriminate. }
  assert (contains text "=" = true) as ->.
  { unfold text. rewrite contains_char_append. apply orb_true_iff. right.
    rewrite append_cons, contains_char_cons. now rewrite Ascii.eqb_refl. }
  assert (text = (key +:+ "=") +:+ "${" +:+ name +:+ "}") as Hshape
    by (unfold text; now rewrite append_assoc).
  assert (contains (key +:+ "=") "$" = false) as Hprefix
    by (rewrite contains_char_append, Hkd; reflexivity).
  assert (PySplit.partition text "${" = Some (key +:+ "=", name +:+ "}")) as Hp
    by (rewrite Hshape; now apply (partition_first (key +:+ "=") (name +:+ "}") "$" "{")).
  rewrite (partition_contains _ _ _ _ Hp).
  cbn [negb andb].
  assert (PySplit.split text "${" = [key +:+ "="; name +:+ "}"]) as ->.
  { apply split_one_occurrence; [exact Hp | | exact Htext].
    apply partition_absent. rewrite contains_char_append, Hnd. reflexivity. }
  cbn [lookup list_lookup default from_option id].
  assert (PySplit.split (name +:+ "}") "}" !! 0%nat = Some name) as ->.
  { apply (split_first_item _ _ name ""); [|destruct name; discriminate].
    rewrite <- (append_nil_r (name +:+ "}")), append_assoc.
    now apply (partition_first name "" "}" ""). }
  cbn [default from_option id].
  rewrite (replace_last_occurrence text _ _ (key +:+ "=")); [| |discriminate | exact Htext].
  - unfold PySplit.split_once. rewrite append_assoc.
    now rewrite (partition_first key _ "=" "" Hkeq).
  - rewrite Hshape. rewrite <- (append_nil_r ("${" +:+ name +:+ "}")) at 1.
    now apply (partition_first (key +:+ "=") "" "$" ("{" +:+ name +:+ "}")).
Qed.

Lemma load_env_line_expands_reference_witness :
  (exists env_vars',
     load_env_line {[ "OPENROUTER_API_KEY" := "sk-123" ]} "OPENAI_API_KEY=${OPENROUTER_API_KEY}"
     = Some env_vars'
     /\ env_vars' !! "OPENAI_API_KEY" = Some "sk-123")
  /\ (exists env_vars',
        load_env_line ∅ "OPENAI_API_KEY=${OPENROUTER_API_KEY}" = Some env_vars'
        /\ env_vars' !! "OPENAI_API_KEY" = Some "").
Proof.
  split; eexists; (split;
    [ apply (load_env_line_expands_reference _
               "OPENAI_API_KEY=${OPENROUTER_API_KEY}" "OPENAI_API_KEY" "OPENROUTER_API_KEY");
        reflexivity
    | vm_compute; reflexivity ]).
Defined.

(** ** From the reply to the verdict *)

Section BenchmarkFacts.

Context {F : Type} `{PyFloat F}.

Variable json_loads : string -> result (json F).
Variable sorted_differ : list (json F) -> list Z -> result bool.

(** X24.  A reply that is no JSON gets no quality report: [extract_json]
    returns [None], [evaluate_quality] the dict of its early return, and
    [print_result] raises [KeyError]; so does a reply that parses to a
    dict without ["categories"]. *)
Theorem reply_without_categories_raises (content : string) :
  (exists msg, json_loads (extract_json_text content) = Raise (JSONDecodeError msg))
  \/ (exists kvs, json_loads (extract_json_text content) = Ok (JObj kvs)
                  /\ dict_get kvs "categories" = None) ->
  judge_reply json_loads sorted_differ content = Raise KeyError.
Proof.
  unfold judge_reply, extract_json. intros [[msg ->]|(kvs & -> & Hk)]; cbn [bind].
  - reflexivity.
  - unfold evaluate_quality. destruct (py_bool (JObj kvs)); cbn [negb bind]; [|reflexivity].
    cbn [py_in_str bind]. rewrite Hk.
    rewrite bool_decide_eq_false_2 by (intros [? ?]; discriminate). reflexivity.
Qed.

End BenchmarkFacts.

Lemma reply_without_categories_raises_witness :
  judge_reply (F:=Q) (fun _ => Raise (JSONDecodeError "Expecting value"))
    sorted_differ_ints "Sorry, I cannot help with that."
  = Raise KeyError.
Proof.
  apply reply_without_categories_raises. left. eexists. reflexivity.
Defined.

(** ** Previews *)

Lemma slice_to_nat (text : string) (n : nat) :
  slice_to text (Z.of_nat n) = substring 0 (Nat.min n (String.length text)) text.
Proof.
  unfold slice_to. destruct (Z.ltb_spec (Z.of_nat n) 0); [lia |].
  f_equal. lia.
Qed.

(** X25.  A preview of [n] characters is the text itself when the text
    has at most [n] characters, and otherwise its first [n] characters
    followed by three dots: it never has more than [n + 3] characters. *)
Theorem preview_bounded (n : nat) (text : string) :
  (String.length (preview n text) <= n + 3)%nat
  /\ ((String.length text <= n)%nat -> preview n text = text)
  /\ ((n < String.length text)%nat ->
      preview n text = substring 0 n text +:+ "..."
      /\ String.length (preview n text) = (n + 3)%nat).
Proof.
  unfold preview. destruct (Nat.ltb_spec n (String.length text)) as [Hlt|Hge].
  - rewrite slice_to_nat, Nat.min_l by lia.
    rewrite length_append, substring_0_length by lia. cbn [String.length].
    split; [lia |]. split; [lia |]. intros _. split; [reflexivity | lia].
  - split; [lia |]. split; [reflexivity | lia].
Qed.

(** *** A line with two references *)

Lemma prefix_closed_names (a b : string) :
  a <> b -> contains a "}" = false -> contains b "}" = false ->
  String.prefix (a +:+ "}") (b +:+ "}") = false.
Proof.
  revert b. induction a as [|x a IH]; intros [|y b] Hne Ha Hb; try congruence.
  - rewrite append_nil_l, append_cons. cbn [String.prefix].
    rewrite contains_char_cons in Hb. apply orb_false_elim in Hb as [Hy _].
    apply Ascii.eqb_neq in Hy. destruct (ascii_dec "}" y); [congruence | reflexivity].
  - rewrite append_nil_l, append_cons. cbn [String.prefix].
    rewrite contains_char_cons in Ha. apply orb_false_elim in Ha as [Hx _].
    apply Ascii.eqb_neq in Hx. destruct (ascii_dec x "}"); [congruence | reflexivity].
  - rewrite !append_cons. cbn [String.prefix].
    rewrite contains_char_cons in Ha, Hb.
    apply orb_false_elim in Ha as [_ Ha]. apply orb_false_elim in Hb as [_ Hb].
    destruct (ascii_dec x y) as [->|_]; [|reflexivity].
    apply IH; [congruence | assumption | assumption].
Qed.

Lemma partition_cons_absent (x : ascii) (s sep : string) :
  String.prefix sep (String x s) = false -> PySplit.partition s sep = None ->
  PySplit.partition (String x s) sep = None.
Proof. intros Hp Hs. cbn [PySplit.partition]. now rewrite Hp, Hs. Qed.

Lemma split_second_item (s sep x rest y rest' : string) :
  PySplit.partition s sep = Some (x, rest) ->
  PySplit.partition rest sep = Some (y, rest') ->
  (2 <= String.length s)%nat ->
  PySplit.split s sep !! 1%nat = Some y.
Proof.
  intros Hp Hq Hlen. unfold PySplit.split.
  destruct (String.length s) as [|[|n]]; [lia | lia |].
  cbn [PySplit.split_upto]. now rewrite Hp, Hq.
Qed.

(** X26.  Only the first name of a line is looked up: in
    [key=${first}${second}] the first reference is replaced by its
    value, the second one, of another name, stays as it is written. *)
Theorem load_env_line_expands_first_reference_only
    (env_vars : gmap string string) (line key first second : string) :
  strip line = key +:+ "=" +:+ "${" +:+ first +:+ "}" +:+ "${" +:+ second +:+ "}" ->
  contains key "=" = false -> contains key "$" = false ->
  startswith key "#" = false ->
  contains first "$" = false -> contains first "}" = false ->
  contains second "$" = false -> contains second "}" = false ->
  first <> second ->
  load_env_line env_vars line
  = Some (<[strip key := strip (default "" (env_vars !! first)
                               +:+ "${" +:+ second +:+ "}")]> env_vars).
Proof.
  intros Hline Hkeq Hkd Hcomment Hfd Hfb Hsd Hsb Hne. unfold load_env_line. rewrite Hline.
  set (tail := "${" +:+ second +:+ "}").
  set (text := key +:+ "=" +:+ "${" +:+ first +:+ "}" +:+ tail).
  assert (text <> "") as Htext by (unfold text; destruct key; discriminate).
  assert (String.eqb text "" = false) as -> by now apply String.eqb_neq.
  assert (startswith text "#" = false) as ->.
  { unfold text. destruct key as [|x key]; [reflexivity |].
    now rewrite startswith_char_append by discriminate. }
  assert (contains text "=" = true) as ->.
  { unfold text. rewrite contains_char_append. apply orb_true_iff. right.
    rewrite append_cons, contains_char_cons. now rewrite Ascii.eqb_refl. }
  assert (text = (key +:+ "=") +:+ "${" +:+ (first +:+ "}" +:+ tail)) as Hshape
    by (unfold text; now rewrite append_assoc).
  assert (contains (key +:+ "=") "$" = false) as Hprefix
    by (rewrite contains_char_append, Hkd; reflexivity).
  assert (PySplit.partition text "${" = Some (key +:+ "=", first +:+ "}" +:+ tail)) as Hp
    by (rewrite Hshape; now apply (partition_first (key +:+ "=") _ "$" "{")).
  rewrite (partition_contains _ _ _ _ Hp). cbn [negb andb].
  assert (PySplit.split text "${" !! 1%nat = Some (first +:+ "}")) as ->.
  { apply (split_second_item _ _ _ _ _ (second +:+ "}") Hp).
    - unfold tail. rewrite <- (append_assoc first "}").
      apply (partition_first (first +:+ "}") (second +:+ "}") "$" "{").
      rewrite contains_char_append, Hfd. reflexivity.
    - unfold text. rewrite !length_append. cbn [String.length]. lia. }
  cbn [default from_option id].
  assert (PySplit.split (first +:+ "}") "}" !! 0%nat = Some first) as ->.
  { apply (split_first_item _ _ first ""); [|destruct first; discriminate].
    rewrite <- (append_nil_r (first +:+ "}")), append_assoc.
    now apply (partition_first first "" "}" ""). }
  cbn [default from_option id].
  assert (PySplit.replace text ("${" +:+ first +:+ "}") (default "" (env_vars !! first))
          = (key +:+ "=") +:+ default "" (env_vars !! first) +:+ tail) as ->.
  { unfold PySplit.replace. destruct (String.length text) as [|n] eqn:Hn.
    - destruct text; [congruence | discriminate Hn].
    - cbn [PySplit.replace_upto].
      assert (PySplit.partition text ("${" +:+ first +:+ "}") = Some (key +:+ "=", tail)) as ->.
      { assert (text = (key +:+ "=") +:+ String "$" ("{" +:+ first +:+ "}") +:+ tail) as ->.
        { rewrite Hshape. f_equal.
          repeat rewrite ?append_cons, ?append_nil_l, ?append_assoc. reflexivity. }
        now apply (partition_first (key +:+ "=") tail "$" ("{" +:+ first +:+ "}")). }
      do 2 f_equal.
      assert (PySplit.partition tail ("${" +:+ first +:+ "}") = None) as Hnone.
      { unfold tail.
        change ("${" +:+ second +:+ "}") with (String "$" ("{" +:+ second +:+ "}")).
        apply partition_cons_absent.
        - change ("${" +:+ first +:+ "}") with (String "$" (String "{" (first +:+ "}"))).
          change ("{" +:+ second +:+ "}") with (String "{" (second +:+ "}")).
          cbn [String.prefix].
          destruct (ascii_dec "$" "$"); [|congruence].
          destruct (ascii_dec "{" "{"); [|congruence].
          now apply prefix_closed_names.
        - apply (partition_absent ("{" +:+ second +:+ "}") "$").
          rewrite contains_char_append, contains_char_append, Hsd. reflexivity. }
      destruct n; cbn [PySplit.replace_upto]; [reflexivity | now rewrite Hnone]. }
  unfold PySplit.split_once. rewrite append_assoc.
  now rewrite (partition_first key _ "=" "" Hkeq).
Qed.

Lemma load_env_line_expands_first_reference_only_witness :
  exists env_vars',
    load_env_line {[ "HOST" := "openrouter.ai"; "PATH" := "/api/v1" ]}
      "OPENAI_BASE_URL=${HOST}${PATH}" = Some env_vars'
    /\ env_vars' !! "OPENAI_BASE_URL" = Some "openrouter.ai${PATH}".
Proof.
  eexists. split.
  - apply (load_env_line_expands_first_reference_only _ "OPENAI_BASE_URL=${HOST}${PATH}"
             "OPENAI_BASE_URL" "HOST" "PATH"); try reflexivity. discriminate.
  - vm_compute. reflexivity.
Defined.

Lemma preview_bounded_witness :
  preview 5 "Jeopardy!" = substring 0 5 "Jeopardy!" +:+ "..."
  /\ String.length (preview 5 "Jeopardy!") = 8%nat.
Proof.
  apply (preview_bounded 5 "Jeopardy!"). cbn. lia.
Defined.
